(** * tmux-bot: the model factory and its ordered profile fallback

    A shallow embedding of [tmuxbot/model/factory.py] (class [ModelFactory])
    over the configuration records of [tmuxbot/config/settings.py].

    - Python dataclasses are records; the [profiles] dictionary, which the
      factory only queries by key, is a [gmap string ProfileConfig]; the
      [agents] dictionary, which the factory also iterates with [.items()],
      is an association list in insertion order.
    - The logger of the module is a list of records (level and message),
      oldest first.  Messages are built exactly as the f-strings build them.
    - Everything outside the factory ([importlib.import_module] and the
      provider's [create_model]) is a transition on an abstract [World]
      that either returns a value or raises.
    - Exceptions are values.  [Exc] ranges over instances of Python's
      [Exception]: these are what [except Exception] matches.  What is
      raised and is not an [Exception] ([KeyboardInterrupt], ...) is the
      subject of the module [BaseExceptions] further down.
    - Methods live in a state-and-exception monad [M]; a raised exception
      keeps the state reached so far, as in Python. *)

From stdpp Require Import base strings list gmap pretty.

Set Default Proof Using "Type".

(** ** Configuration records ([settings.py]) *)

(** [pydantic_ai.ModelSettings] is passed through to the provider
    uninterpreted; a list of key/value pairs stands for it. *)
Definition ModelSettings : Type := list (string * string).

Record ProfileConfig := mkProfileConfig {
  provider : string;
  api_key : string;
  model : string;
  base_url : option string;
  settings : option ModelSettings
}.

Record AgentConfig := mkAgentConfig {
  profile : string;
  instructions : option string;
  fallbacks : option (list string)
}.

(** A Python [dict] with string keys whose iteration order is observed:
    the items in insertion order.  A [dict] has no two items with the same
    key ([dict_wf]). *)
Definition Dict (V : Type) : Type := list (string * V).

Fixpoint dict_get {V} (d : Dict V) (k : string) : option V :=
  match d with
  | [] => None
  | (k', v) :: d' => if decide (k' = k) then Some v else dict_get d' k
  end.

Definition dict_items {V} (d : Dict V) : list (string * V) := d.

Definition dict_wf {V} (d : Dict V) : Prop := NoDup (d.*1).

Record Config := mkConfig {
  profiles : gmap string ProfileConfig;
  agents : Dict AgentConfig;
  max_history : Z;
  conversation_timeout : Z
}.

(** ** Exceptions and the logger *)

(** The classes the handlers of the factory tell apart.  A subclass is
    filed under the nearest of them ([ModuleNotFoundError] under
    [ImportError]); [OtherException] is any other subclass of
    [Exception], with its class name. *)
Inductive ExcClass :=
  | ImportError
  | AttributeError
  | ValueError
  | RuntimeError
  | OtherException (cls : string).

(** An exception instance: its class, [str(e)], and [e.__cause__] as set
    by [raise ... from err]. *)
#[local] Unset Elimination Schemes.
Inductive Exc := mkExc {
  exc_class : ExcClass;
  exc_str : string;
  exc_cause : option Exc
}.
#[local] Set Elimination Schemes.

Inductive Level := DEBUG | WARNING | ERROR.

Record LogRecord := mkLog { levelname : Level; message : string }.

#[global] Instance Level_eq_dec : EqDecision Level.
Proof. solve_decision. Defined.

#[global] Instance LogRecord_eq_dec : EqDecision LogRecord.
Proof. solve_decision. Defined.

(** The outcome of a call: a value, or a raised exception. *)
Inductive Res (A : Type) :=
  | Ok (a : A)
  | Raise (e : Exc).
Arguments Ok {A} a.
Arguments Raise {A} e.

Section Factory.

(** [Model] is [pydantic_ai.models.Model], opaque to the factory.
    [World] is whatever the interpreter and the providers read and
    change: the module cache, the network, a mock's [side_effect]. *)
Context {Model World : Type}.

(** A call into the outside world. *)
Definition Extern (A : Type) : Type := World -> Res A * World.

(** What the factory sees of a provider module: the value of
    [getattr(provider_module, "create_model", None)]. *)
Record ProviderModule := mkProviderModule {
  create_model_attr : option (ProfileConfig -> Extern (option Model))
}.

(** [importlib.import_module], by module path. *)
Variable import_module : string -> Extern ProviderModule.

(** *** The monad *)

(** [calls] is a spy on [_create_model_for_profile]: the arguments it
    was called with, oldest first.  No code reads it. *)
Record St := mkSt {
  world : World;
  log : list LogRecord;
  calls : list string
}.

Definition M (A : Type) : Type := St -> Res A * St.

Definition ret {A} (a : A) : M A := fun s => (Ok a, s).

Definition bind {A B} (m : M A) (k : A -> M B) : M B :=
  fun s =>
    match m s with
    | (Ok a, s') => k a s'
    | (Raise e, s') => (Raise e, s')
    end.

Definition raise {A} (e : Exc) : M A := fun s => (Raise e, s).

(** [try: body  except Exception as e: handler e]. *)
Definition try_except {A} (body : M A) (handler : Exc -> M A) : M A :=
  fun s =>
    match body s with
    | (Ok a, s') => (Ok a, s')
    | (Raise e, s') => handler e s'
    end.

Definition extern {A} (f : Extern A) : M A :=
  fun s =>
    let '(r, w) := f (world s) in
    (r, mkSt w (log s) (calls s)).

Definition logger (lvl : Level) (msg : string) : M unit :=
  fun s => (Ok tt, mkSt (world s) (log s ++ [mkLog lvl msg]) (calls s)).

Definition spy (profile_name : string) : M unit :=
  fun s => (Ok tt, mkSt (world s) (log s) (calls s ++ [profile_name])).

Notation "x <- m ;; k" := (bind m (fun x => k))
  (at level 100, m at next level, right associativity).
Notation "m ;; k" := (bind m (fun _ => k))
  (at level 100, right associativity).

(** [for x in xs: body x], for a body that only has effects. *)
Fixpoint for_each {A} (xs : list A) (body : A -> M unit) : M unit :=
  match xs with
  | [] => ret tt
  | x :: xs' => body x ;; for_each xs' body
  end.

(** Truth value of an [Optional[List[str]]]: [None] and [[]] are false. *)
Definition truthy {A} (o : option (list A)) : bool :=
  match o with
  | Some (_ :: _) => true
  | _ => false
  end.

(** Iterating an [Optional[List[str]]] that was tested truthy. *)
Definition items {A} (o : option (list A)) : list A :=
  match o with
  | Some l => l
  | None => []
  end.

(** *** class ModelFactory *)

Record ModelFactory := mkModelFactory { config : Config }.

Definition fallback_warning (agent_name fallback_profile : string) : string :=
  "Agent '" +:+ agent_name +:+ "' has fallback profile '" +:+ fallback_profile +:+ "' "
  +:+ "which is not defined in the configuration".

Definition _validate_fallback_configuration (self : ModelFactory) : M unit :=
  for_each (dict_items (agents (config self))) (fun '(agent_name, agent_config) =>
    if truthy (fallbacks agent_config) then
      for_each (items (fallbacks agent_config)) (fun fallback_profile =>
        match profiles (config self) !! fallback_profile with
        | None => logger WARNING (fallback_warning agent_name fallback_profile)
        | Some _ => ret tt
        end)
    else ret tt).

Definition __init__ (config : Config) : M ModelFactory :=
  let self := mkModelFactory config in
  _validate_fallback_configuration self ;;
  ret self.

Definition unsupported_provider_msg (provider_name : string) : string :=
  "Unsupported provider specified: '" +:+ provider_name +:+
  "'. Could not find provider module 'tmuxbot.providers." +:+ provider_name +:+ "'".

Definition no_create_model_msg (provider_name : string) : string :=
  "Provider module '" +:+ provider_name +:+ "' does not have a 'create_model' function".

Definition unexpected_error_msg (provider_name : string) (e : Exc) : string :=
  "An unexpected error occurred while loading provider '" +:+ provider_name +:+ "': "
  +:+ exc_str e.

(** The three [except] clauses are tried in the order of the source.
    The [ValueError] raised inside the [try] for a missing
    [create_model] attribute is neither an [ImportError] nor an
    [AttributeError], so the last clause wraps it.  ([exc_info=True] of
    the last [logger.error] only attaches the traceback.)  The leading
    [spy] has no counterpart in the source: it notes the call, as a test
    double of the method would. *)
Definition _create_model_for_profile (self : ModelFactory) (profile_name : string)
  : M (option Model) :=
  spy profile_name ;;
  match profiles (config self) !! profile_name with
  | None =>
      logger ERROR ("Profile not found: " +:+ profile_name) ;;
      ret None
  | Some profile =>
      logger DEBUG ("Attempting to create model for profile: "
                    +:+ provider profile +:+ ":" +:+ model profile) ;;
      let provider_name := provider profile in
      try_except
        (provider_module <- extern (import_module ("tmuxbot.providers." +:+ provider_name)) ;;
         logger DEBUG ("Successfully imported provider module: tmuxbot.providers."
                       +:+ provider_name) ;;
         match create_model_attr provider_module with
         | None => raise (mkExc ValueError (no_create_model_msg provider_name) None)
         | Some create_model_func => extern (create_model_func profile)
         end)
        (fun err =>
           match exc_class err with
           | ImportError =>
               let error_msg := unsupported_provider_msg provider_name in
               logger ERROR error_msg ;;
               raise (mkExc ValueError error_msg (Some err))
           | AttributeError =>
               let error_msg := no_create_model_msg provider_name in
               logger ERROR error_msg ;;
               raise (mkExc ValueError error_msg (Some err))
           | _ =>
               let error_msg := unexpected_error_msg provider_name err in
               logger ERROR error_msg ;;
               raise (mkExc RuntimeError error_msg (Some err))
           end)
  end.

(** The candidate list of the loop: [[agent_config.profile]], extended
    by the fallbacks when they are truthy. *)
Definition profile_names (agent_config : AgentConfig) : list string :=
  [profile agent_config] ++
  (if truthy (fallbacks agent_config) then items (fallbacks agent_config) else []).

Definition fallback_used_msg (agent_type primary profile_name : string) : string :=
  "Primary profile '" +:+ primary +:+ "' failed, using fallback '" +:+ profile_name
  +:+ "' for agent '" +:+ agent_type +:+ "'".

Definition primary_used_msg (agent_type profile_name : string) : string :=
  "Using primary profile '" +:+ profile_name +:+ "' for agent '" +:+ agent_type +:+ "'".

Definition profile_failed_msg (agent_type profile_name : string) (e : Exc) : string :=
  "Profile '" +:+ profile_name +:+ "' failed for agent '" +:+ agent_type +:+ "': "
  +:+ exc_str e.

Definition all_failed_msg (agent_type : string) (last_error : Exc) : string :=
  "All profiles failed for agent '" +:+ agent_type +:+ "'. Last error: "
  +:+ exc_str last_error.

Definition no_valid_profiles_msg (agent_type : string) : string :=
  "No valid profiles found for agent '" +:+ agent_type +:+ "'".

(** The [for profile_name in profile_names] loop of [create_model], with
    the local [last_error] as an argument.  [inl model] is the [return
    model] inside the loop; [inr last_error] is the loop running out,
    with the value [last_error] has then.  A [None] from
    [_create_model_for_profile] leaves the [try] without touching
    [last_error]; the handler assigns it. *)
Fixpoint for_profile_names (self : ModelFactory) (agent_type : string)
    (agent_config : AgentConfig) (names : list string) (last_error : option Exc)
  : M (Model + option Exc) :=
  match names with
  | [] => ret (inr last_error)
  | profile_name :: rest =>
      step <- try_except
        (model <- _create_model_for_profile self profile_name ;;
         match model with
         | Some m =>
             (if decide (profile_name ≠ profile agent_config)
              then logger WARNING
                     (fallback_used_msg agent_type (profile agent_config) profile_name)
              else logger DEBUG (primary_used_msg agent_type profile_name)) ;;
             ret (inl m)
         | None => ret (inr last_error)
         end)
        (fun e =>
           logger WARNING (profile_failed_msg agent_type profile_name e) ;;
           ret (inr (Some e))) ;;
      match step with
      | inl m => ret (inl m)
      | inr last_error' => for_profile_names self agent_type agent_config rest last_error'
      end
  end.

(** [if last_error:] tests an exception instance, which is true. *)
Definition create_model (self : ModelFactory) (agent_type : string) : M (option Model) :=
  match dict_get (agents (config self)) agent_type with
  | None =>
      logger ERROR ("Agent configuration not found: " +:+ agent_type) ;;
      ret None
  | Some agent_config =>
      r <- for_profile_names self agent_type agent_config (profile_names agent_config) None ;;
      match r with
      | inl m => ret (Some m)
      | inr last_error =>
          match last_error with
          | Some e => logger ERROR (all_failed_msg agent_type e)
          | None => logger ERROR (no_valid_profiles_msg agent_type)
          end ;;
          ret None
      end
  end.

(** *** Vocabulary of the specification *)

(** The state with one more log record. *)
Definition logged (r : LogRecord) (s : St) : St :=
  mkSt (world s) (log s ++ [r]) (calls s).

(** [all_fail self agent_type names s outs s']: starting in [s], the
    construction of every candidate of [names], taken in order, fails;
    [outs] lists how, [None] for a null model and [Some e] for a raised
    [e]; [s'] is the state reached.  Each construction starts in the
    state the loop left after the one before: after a raise, that is the
    state with the warning of the handler logged. *)
Inductive all_fail (self : ModelFactory) (agent_type : string)
  : list string -> St -> list (option Exc) -> St -> Prop :=
  | all_fail_nil s :
      all_fail self agent_type [] s [] s
  | all_fail_null profile_name rest s s1 outs s2 :
      _create_model_for_profile self profile_name s = (Ok None, s1) ->
      all_fail self agent_type rest s1 outs s2 ->
      all_fail self agent_type (profile_name :: rest) s (None :: outs) s2
  | all_fail_raise profile_name rest s e s1 outs s2 :
      _create_model_for_profile self profile_name s = (Raise e, s1) ->
      all_fail self agent_type rest
        (logged (mkLog WARNING (profile_failed_msg agent_type profile_name e)) s1) outs s2 ->
      all_fail self agent_type (profile_name :: rest) s (Some e :: outs) s2.

(** The most recent error among the outcomes of a run of failures. *)
Definition most_recent_error (outs : list (option Exc)) : option Exc :=
  last (omap id outs).

(** The value of [last_error] after a run of failures that started with
    [last_error]. *)
Definition carried (last_error : option Exc) (outs : list (option Exc)) : option Exc :=
  match most_recent_error outs with
  | Some e => Some e
  | None => last_error
  end.

(** Two states that differ at most in the spy trace. *)
Definition same_visible (s1 s2 : St) : Prop :=
  world s1 = world s2 /\ log s1 = log s2.

(** The records logged between two states. *)
Definition emitted (s s' : St) : list LogRecord := drop (length (log s)) (log s').

(** The pairs (agent, fallback name) the validation pass is to warn
    about: for every agent in the order of [config.agents], every name of
    its fallback list, in order, that [config.profiles] lacks. *)
Definition missing_fallbacks (cfg : Config) : list (string * string) :=
  '(agent_name, agent_config) ← agents cfg;
  fallback_profile ← default [] (fallbacks agent_config);
  if decide (profiles cfg !! fallback_profile = None)
  then [(agent_name, fallback_profile)] else [].

(** The records the validation pass is to log for them. *)
Definition validation_warnings (cfg : Config) : list LogRecord :=
  (fun '(agent_name, fallback_profile) =>
     mkLog WARNING (fallback_warning agent_name fallback_profile))
  <$> missing_fallbacks cfg.

End Factory.

Arguments ProviderModule : clear implicits.
Arguments St : clear implicits.
Arguments M : clear implicits.
Arguments Extern : clear implicits.

(** ** A concrete world: one provider, mocked

    The scenarios of the test file: the only provider module is
    [tmuxbot.providers.openai], and its [create_model] is a mock whose
    [side_effect] is a list of outcomes, consumed one per call.  Models are
    named by strings. *)
Module Scenario.

Definition World : Type := list (Res (option string)).

Definition mock_create_model (_ : ProfileConfig) : Extern World (option string) :=
  fun w =>
    match w with
    | o :: w' => (o, w')
    | [] => (Raise (mkExc (OtherException "StopIteration") "" None), [])
    end.

Definition import_module (path : string) : Extern World (ProviderModule string World) :=
  fun w =>
    if decide (path = "tmuxbot.providers.openai")
    then (Ok (mkProviderModule (Some mock_create_model)), w)
    else (Raise (mkExc ImportError ("No module named '" +:+ path +:+ "'") None), w).

Definition openai (m : string) : ProfileConfig :=
  mkProfileConfig "openai" "test-key" m None None.

Definition cfg : Config :=
  mkConfig
    {[ "A" := openai "gpt-4"; "B" := openai "gpt-3.5-turbo" ]}
    [ ("x", mkAgentConfig "A" None (Some ["B"]));
      ("y", mkAgentConfig "A" None (Some ["Z"]));
      ("dup", mkAgentConfig "A" None (Some ["A"]));
      ("z", mkAgentConfig "Z" None None);
      ("w", mkAgentConfig "Z" (Some "dangling primary") (Some ["B"])) ]
    100 300.

Definition factory : ModelFactory := mkModelFactory cfg.

Definition start (w : World) : St World := mkSt w [] [].

Definition boom : Res (option string) :=
  Raise (mkExc (OtherException "Exception") "Primary failed" None).

Definition run_create_model (agent_type : string) (w : World)
  : Res (option string) * St World :=
  create_model import_module factory agent_type (start w).

End Scenario.

(** ** Exceptions that [except Exception] lets through

    [KeyboardInterrupt], [SystemExit], [GeneratorExit] and
    [asyncio.CancelledError] derive from [BaseException] and not from
    [Exception]: no [except] clause of the factory matches them.  Here
    the factory is embedded once more, from the same source, over
    outcomes that include them: an import or a provider may return,
    raise an [Exception], or raise one of these, which then passes
    every [try].  Over a world that raises none of them this is the
    factory above. *)
Module BaseExceptions.

(** An instance of [BaseException] that is not an instance of
    [Exception]: its class and [str(e)]. *)
Record BaseExc := mkBaseExc { base_class : string; base_str : string }.

Inductive Outcome (A : Type) :=
  | Returns (a : A)
  | Raises (e : Exc)
  | Escapes (b : BaseExc).
Arguments Returns {A} a.
Arguments Raises {A} e.
Arguments Escapes {A} b.

Section Factory.

Context {Model World : Type}.

Definition Extern (A : Type) : Type := World -> Outcome A * World.

Record ProviderModule := mkProviderModule {
  create_model_attr : option (ProfileConfig -> Extern (option Model))
}.

Variable import_module : string -> Extern ProviderModule.

Definition M (A : Type) : Type := St World -> Outcome A * St World.

Definition ret {A} (a : A) : M A := fun s => (Returns a, s).

Definition bind {A B} (m : M A) (k : A -> M B) : M B :=
  fun s =>
    match m s with
    | (Returns a, s') => k a s'
    | (Raises e, s') => (Raises e, s')
    | (Escapes b, s') => (Escapes b, s')
    end.

Definition raise {A} (e : Exc) : M A := fun s => (Raises e, s).

(** [try: body  except Exception as e: handler e]: what is not an
    [Exception] is not caught. *)
Definition try_except {A} (body : M A) (handler : Exc -> M A) : M A :=
  fun s =>
    match body s with
    | (Returns a, s') => (Returns a, s')
    | (Raises e, s') => handler e s'
    | (Escapes b, s') => (Escapes b, s')
    end.

Definition extern {A} (f : Extern A) : M A :=
  fun s =>
    let '(r, w) := f (world s) in
    (r, mkSt w (log s) (calls s)).

Definition logger (lvl : Level) (msg : string) : M unit :=
  fun s => (Returns tt, mkSt (world s) (log s ++ [mkLog lvl msg]) (calls s)).

Definition spy (profile_name : string) : M unit :=
  fun s => (Returns tt, mkSt (world s) (log s) (calls s ++ [profile_name])).

Notation "x <- m ;; k" := (bind m (fun x => k))
  (at level 100, m at next level, right associativity).
Notation "m ;; k" := (bind m (fun _ => k))
  (at level 100, right associativity).

Definition _create_model_for_profile (self : ModelFactory) (profile_name : string)
  : M (option Model) :=
  spy profile_name ;;
  match profiles (config self) !! profile_name with
  | None =>
      logger ERROR ("Profile not found: " +:+ profile_name) ;;
      ret None
  | Some profile =>
      logger DEBUG ("Attempting to create model for profile: "
                    +:+ provider profile +:+ ":" +:+ model profile) ;;
      let provider_name := provider profile in
      try_except
        (provider_module <- extern (import_module ("tmuxbot.providers." +:+ provider_name)) ;;
         logger DEBUG ("Successfully imported provider module: tmuxbot.providers."
                       +:+ provider_name) ;;
         match create_model_attr provider_module with
         | None => raise (mkExc ValueError (no_create_model_msg provider_name) None)
         | Some create_model_func => extern (create_model_func profile)
         end)
        (fun err =>
           match exc_class err with
           | ImportError =>
               let error_msg := unsupported_provider_msg provider_name in
               logger ERROR error_msg ;;
               raise (mkExc ValueError error_msg (Some err))
           | AttributeError =>
               let error_msg := no_create_model_msg provider_name in
               logger ERROR error_msg ;;
               raise (mkExc ValueError error_msg (Some err))
           | _ =>
               let error_msg := unexpected_error_msg provider_name err in
               logger ERROR error_msg ;;
               raise (mkExc RuntimeError error_msg (Some err))
           end)
  end.

Fixpoint for_profile_names (self : ModelFactory) (agent_type : string)
    (agent_config : AgentConfig) (names : list string) (last_error : option Exc)
  : M (Model + option Exc) :=
  match names with
  | [] => ret (inr last_error)
  | profile_name :: rest =>
      step <- try_except
        (model <- _create_model_for_profile self profile_name ;;
         match model with
         | Some m =>
             (if decide (profile_name ≠ profile agent_config)
              then logger WARNING
                     (fallback_used_msg agent_type (profile agent_config) profile_name)
              else logger DEBUG (primary_used_msg agent_type profile_name)) ;;
             ret (inl m)
         | None => ret (inr last_error)
         end)
        (fun e =>
           logger WARNING (profile_failed_msg agent_type profile_name e) ;;
           ret (inr (Some e))) ;;
      match step with
      | inl m => ret (inl m)
      | inr last_error' => for_profile_names self agent_type agent_config rest last_error'
      end
  end.

Definition create_model (self : ModelFactory) (agent_type : string) : M (option Model) :=
  match dict_get (agents (config self)) agent_type with
  | None =>
      logger ERROR ("Agent configuration not found: " +:+ agent_type) ;;
      ret None
  | Some agent_config =>
      r <- for_profile_names self agent_type agent_config (profile_names agent_config) None ;;
      match r with
      | inl m => ret (Some m)
      | inr last_error =>
          match last_error with
          | Some e => logger ERROR (all_failed_msg agent_type e)
          | None => logger ERROR (no_valid_profiles_msg agent_type)
          end ;;
          ret None
      end
  end.

(** [escapes_from self names b]: [b] was raised by the import of the
    provider module of a candidate of [names] whose profile exists, or
    by the [create_model] of that module, called with that profile. *)
Definition escapes_from (self : ModelFactory) (names : list string) (b : BaseExc) : Prop :=
  exists profile_name p w,
    profile_name ∈ names /\
    profiles (config self) !! profile_name = Some p /\
    ((import_module ("tmuxbot.providers." +:+ provider p) w).1 = Escapes b \/
     exists w0 provider_module create_model_func,
       import_module ("tmuxbot.providers." +:+ provider p) w0 = (Returns provider_module, w) /\
       create_model_attr provider_module = Some create_model_func /\
       (create_model_func p w).1 = Escapes b).

End Factory.

Arguments ProviderModule : clear implicits.
Arguments M : clear implicits.
Arguments Extern : clear implicits.

(** The mocked provider of the scenarios, with a [side_effect] that may
    hold a [KeyboardInterrupt]. *)
Definition World : Type := list (Outcome (option string)).

Definition mock_create_model (_ : ProfileConfig) : Extern World (option string) :=
  fun w =>
    match w with
    | o :: w' => (o, w')
    | [] => (Raises (mkExc (OtherException "StopIteration") "" None), [])
    end.

Definition import_module (path : string) : Extern World (ProviderModule string World) :=
  fun w =>
    if decide (path = "tmuxbot.providers.openai")
    then (Returns (mkProviderModule (Some mock_create_model)), w)
    else (Raises (mkExc ImportError ("No module named '" +:+ path +:+ "'") None), w).

Definition boom : Outcome (option string) :=
  Raises (mkExc (OtherException "Exception") "Primary failed" None).


End BaseExceptions.

(** An outcome of the factory above as an outcome with these
    exceptions, and a world that raises none of them as a world that
    might. *)
Definition lift_res {A} (r : Res A) : BaseExceptions.Outcome A :=
  match r with
  | Ok a => BaseExceptions.Returns a
  | Raise e => BaseExceptions.Raises e
  end.

Definition lift_run {W A} (x : Res A * W) : BaseExceptions.Outcome A * W :=
  (lift_res x.1, x.2).

Definition lift_extern {World A} (f : Extern World A) : BaseExceptions.Extern World A :=
  fun w => lift_run (f w).

Definition lift_module {Model World} (provider_module : ProviderModule Model World)
  : BaseExceptions.ProviderModule Model World :=
  BaseExceptions.mkProviderModule
    ((fun create_model_func p => lift_extern (create_model_func p))
     <$> create_model_attr provider_module).

Definition lift_import {Model World}
    (import_module : string -> Extern World (ProviderModule Model World))
  : string -> BaseExceptions.Extern World (BaseExceptions.ProviderModule Model World) :=
  fun path w =>
    match import_module path w with
    | (Ok provider_module, w') => (BaseExceptions.Returns (lift_module provider_module), w')
    | (Raise e, w') => (BaseExceptions.Raises e, w')
    end.

(** The last record of the log has level [lvl]. *)
Definition last_level {World} (s : St World) (lvl : Level) : Prop :=
  exists rec, last (log s) = Some rec /\ levelname rec = lvl.

(** ** The configuration directory, the migration and the setup checks

    [tmuxbot/config/settings.py] (the XDG path functions and
    [ensure_config_directory]), [tmuxbot/utils/config_migration.py],
    five methods of [ConfigSetup] in [scripts/setup-config.py] and the
    migration functions of [scripts/migrate-config-xdg.py].

    These run in the same monad, over a world [Sys] that holds the
    process environment, the file system, the terminal and the records
    of the loggers of these modules.  [pathlib.Path] and the file system
    are abstract: a path is made from a string, joined, printed and given
    a suffix; [Path.cwd], [Path.home] and [Path.exists] read the file
    system and may raise; [mkdir] and [shutil.copy2] change it and may
    raise.  The string methods [lower], [strip], [len] and slicing are
    Python's, taken as given. *)

(** The methods of a logger that these modules call. *)
Inductive LoggerMethod := debug | info | warning | error.

Record Logged := mkLogged {
  logger_name : string;
  logger_method : LoggerMethod;
  logged_msg : string
}.

#[global] Instance LoggerMethod_eq_dec : EqDecision LoggerMethod.
Proof. solve_decision. Defined.

(** The line feed. *)
Definition nl : string := String (Ascii.ascii_of_nat 10) "".

(** [Path(s)], [p / s], [str(p)], [p.with_suffix(s)], [p.parent]; [Path.cwd()],
    [Path.home()] (which consults the environment) and [p.exists()];
    [p.mkdir(parents=True, exist_ok=True)] and [shutil.copy2(src, dst)],
    whose source is passed as Python has it, [None] included. *)
Class PathLib (Path FS : Type) := {
  Path_of : string -> Path;
  joinpath : Path -> string -> Path;
  path_str : Path -> string;
  with_suffix : Path -> string -> Path;
  path_parent : Path -> Path;
  path_cwd : FS -> Res Path;
  path_home : gmap string string -> FS -> Res Path;
  path_exists : Path -> FS -> Res bool;
  mkdir : Path -> FS -> Res unit * FS;
  copy2 : option Path -> Path -> FS -> Res unit * FS
}.

(** [s.lower()], [s.strip()], [len(s)], [s[:n]], [s[-n:]]. *)
Class StrMethods := {
  str_lower : string -> string;
  str_strip : string -> string;
  str_len : string -> nat;
  str_slice_to : nat -> string -> string;
  str_slice_last : nat -> string -> string
}.

Section System.

Context {Path FS : Type} `{!PathLib Path FS} `{!StrMethods}.

(** [stdout] lists what [print] and [input] wrote, a [print] with its
    line feed; [stdin] lists the lines still to be read; [records] lists
    the calls made to the loggers, oldest first.  What a handler of the
    [logging] module does with a record (the migration script sends them
    to the standard output) is not part of [stdout]. *)
Record Sys := mkSys {
  environ : gmap string string;
  fs : FS;
  stdout : list string;
  stdin : list string;
  records : list Logged
}.

Notation "x <- m ;; k" := (bind m (fun x => k))
  (at level 100, m at next level, right associativity).
Notation "m ;; k" := (bind m (fun _ => k))
  (at level 100, right associativity).

Definition getenv (name : string) : M Sys (option string) :=
  extern (fun w => (Ok (environ w !! name), w)).

(** [print(line)] to a standard output that takes the text: a stream
    that cannot encode it (the scripts print emoji) would make [print]
    raise [UnicodeEncodeError], which is outside this model. *)
Definition print (line : string) : M Sys unit :=
  extern (fun w =>
    (Ok tt, mkSys (environ w) (fs w) (stdout w ++ [line +:+ nl]) (stdin w) (records w))).

(** [input(prompt)]: the prompt is written, a line is read; at the end of
    the input it raises [EOFError]. *)
Definition input (prompt : string) : M Sys string :=
  extern (fun w =>
    let w' lines := mkSys (environ w) (fs w) (stdout w ++ [prompt]) lines (records w) in
    match stdin w with
    | line :: lines => (Ok line, w' lines)
    | [] => (Raise (mkExc (OtherException "EOFError") "EOF when reading a line" None), w' [])
    end).

Definition log_call (name : string) (method : LoggerMethod) (msg : string) : M Sys unit :=
  extern (fun w =>
    (Ok tt, mkSys (environ w) (fs w) (stdout w) (stdin w)
                  (records w ++ [mkLogged name method msg]))).

Definition read_fs {A} (f : FS -> Res A) : M Sys A :=
  extern (fun w => (f (fs w), w)).

Definition write_fs (f : FS -> Res unit * FS) : M Sys unit :=
  extern (fun w =>
    let '(r, fs') := f (fs w) in
    (r, mkSys (environ w) fs' (stdout w) (stdin w) (records w))).

Definition cwd : M Sys Path := read_fs path_cwd.

Definition home : M Sys Path :=
  extern (fun w => (path_home (environ w) (fs w), w)).

Definition exists_ (p : Path) : M Sys bool := read_fs (path_exists p).

(** [except PermissionError]. *)
Definition is_PermissionError (e : Exc) : bool :=
  match exc_class e with
  | OtherException cls => bool_decide (cls = "PermissionError")
  | _ => false
  end.

(** An [Optional[Path]] in an f-string. *)
Definition str_opt (p : option Path) : string :=
  match p with
  | Some p => path_str p
  | None => "None"
  end.

(** *** settings.py *)

Definition settings_logger : string := "tmuxbot.config.settings".

(** [if xdg_config_home:] is false for [None] and for the empty string. *)
Definition get_xdg_config_home : M Sys Path :=
  xdg_config_home <- getenv "XDG_CONFIG_HOME" ;;
  match xdg_config_home with
  | Some (String c rest) => ret (Path_of (String c rest))
  | _ => h <- home ;; ret (joinpath h ".config")
  end.

Definition get_tmuxbot_config_dir : M Sys Path :=
  d <- get_xdg_config_home ;; ret (joinpath d "tmuxbot").

Definition get_config_file_path : M Sys Path :=
  d <- get_tmuxbot_config_dir ;; ret (joinpath d "config.yaml").

Definition ensure_config_directory : M Sys Path :=
  config_dir <- get_tmuxbot_config_dir ;;
  try_except
    (write_fs (mkdir config_dir) ;;
     log_call settings_logger debug
       ("Configuration directory ensured: " +:+ path_str config_dir) ;;
     ret config_dir)
    (fun e =>
       if is_PermissionError e then
         log_call settings_logger warning
           ("Permission denied creating config directory: " +:+ path_str config_dir) ;;
         cwd
       else
         log_call settings_logger warning
           ("Failed to create config directory " +:+ path_str config_dir +:+ ": "
            +:+ exc_str e) ;;
         cwd).

(** *** config_migration.py *)

Definition migration_logger : string := "tmuxbot.utils.config_migration".

Definition detect_legacy_config : M Sys (option Path) :=
  d <- cwd ;;
  let legacy_config := joinpath d "config.yaml" in
  b <- exists_ legacy_config ;;
  ret (if b then Some legacy_config else None).

Definition get_migration_paths : M Sys (Path * Path) :=
  d <- cwd ;;
  let legacy_path := joinpath d "config.yaml" in
  xdg_path <- get_config_file_path ;;
  ret (legacy_path, xdg_path).

(** [and] does not evaluate [xdg_path.exists()] when the legacy file is
    missing; the tuple evaluates [legacy_path.exists()] once more. *)
Definition check_migration_needed : M Sys (bool * option Path * Path) :=
  paths <- get_migration_paths ;;
  let '(legacy_path, xdg_path) := paths in
  needs_migration <-
    (legacy_exists <- exists_ legacy_path ;;
     if legacy_exists
     then xdg_exists <- exists_ xdg_path ;; ret (negb xdg_exists)
     else ret false) ;;
  legacy_exists <- exists_ legacy_path ;;
  ret (needs_migration, if legacy_exists then Some legacy_path else None, xdg_path).

(** The body of the [try] of [migrate_config]. *)
Definition migrate_steps (interactive backup : bool)
    (legacy_path : option Path) (xdg_path : Path) : M Sys bool :=
  config_dir <- ensure_config_directory ;;
  log_call migration_logger info
    ("Configuration directory ensured: " +:+ path_str config_dir) ;;
  write_fs (copy2 legacy_path xdg_path) ;;
  log_call migration_logger info
    ("Configuration copied: " +:+ str_opt legacy_path +:+ " -> " +:+ path_str xdg_path) ;;
  created <- exists_ xdg_path ;;
  (if created then ret tt
   else raise (mkExc RuntimeError "Configuration file was not created at destination" None)) ;;
  (if backup then
     backup_path <-
       match legacy_path with
       | Some p => ret (with_suffix p ".yaml.backup")
       | None =>
           raise (mkExc AttributeError
                    "'NoneType' object has no attribute 'with_suffix'" None)
       end ;;
     write_fs (copy2 legacy_path backup_path) ;;
     log_call migration_logger info ("Backup created: " +:+ path_str backup_path)
   else ret tt) ;;
  let success_msg :=
    "✅ Configuration successfully migrated to XDG location: " +:+ path_str xdg_path in
  log_call migration_logger info success_msg ;;
  (if interactive then
     print (nl +:+ success_msg) ;;
     (if backup
      then print ("📦 Backup created: " +:+ str_opt legacy_path +:+ ".backup")
      else ret tt) ;;
     print (nl +:+ "You can now remove the legacy config file: " +:+ str_opt legacy_path)
   else ret tt) ;;
  ret true.

(** The two [except] clauses of [migrate_config]. *)
Definition migrate_failed (interactive : bool) (e : Exc) : M Sys bool :=
  let error_msg :=
    (if is_PermissionError e
     then "Permission denied during migration: "
     else "Migration failed: ") +:+ exc_str e in
  log_call migration_logger error error_msg ;;
  (if interactive then print ("❌ " +:+ error_msg) else ret tt) ;;
  ret false.

(** The confirmation of the interactive mode; [true] to go on. *)
Definition confirm_migration (backup : bool)
    (legacy_path : option Path) (xdg_path : Path) : M Sys bool :=
  print (nl +:+ "Configuration Migration Required") ;;
  print ("From: " +:+ str_opt legacy_path) ;;
  print ("To:   " +:+ path_str xdg_path) ;;
  print (nl +:+ "This will:") ;;
  print "  1. Create XDG config directory if needed" ;;
  print "  2. Copy configuration to XDG location" ;;
  print "  3. Preserve file permissions and timestamps" ;;
  (if backup
   then print ("  4. Create backup: " +:+ str_opt legacy_path +:+ ".backup")
   else ret tt) ;;
  answer <- input (nl +:+ "Proceed with migration? [y/N]: ") ;;
  let response := str_strip (str_lower answer) in
  if bool_decide (response ∈ ["y"; "yes"]) then ret true
  else log_call migration_logger info "Migration cancelled by user" ;; ret false.

(** [migrate_config(interactive, backup)].  [early] is the value of the
    [return] statements under [if not needs_migration:], [None] when
    none of them is reached. *)
Definition migrate_config (interactive backup : bool) : M Sys bool :=
  needed <- check_migration_needed ;;
  let '(needs_migration, legacy_path, xdg_path) := needed in
  early <-
    (if negb needs_migration then
       match legacy_path with
       | None =>
           log_call migration_logger info
             "No legacy configuration found - migration not needed" ;;
           ret (Some true)
       | Some _ =>
           xdg_exists <- exists_ xdg_path ;;
           if xdg_exists then
             log_call migration_logger info
               "XDG configuration already exists - migration not needed" ;;
             log_call migration_logger info ("Legacy config: " +:+ str_opt legacy_path) ;;
             log_call migration_logger info ("XDG config: " +:+ path_str xdg_path) ;;
             (if interactive then
                print ("Both legacy (" +:+ str_opt legacy_path +:+ ") and XDG ("
                       +:+ path_str xdg_path +:+ ") configs exist.") ;;
                print "XDG config takes priority. Consider removing legacy config manually."
              else ret tt) ;;
             ret (Some true)
           else ret None
       end
     else ret None) ;;
  match early with
  | Some result => ret result
  | None =>
      log_call migration_logger info
        ("Migration needed: " +:+ str_opt legacy_path +:+ " -> " +:+ path_str xdg_path) ;;
      proceed <-
        (if interactive then confirm_migration backup legacy_path xdg_path else ret true) ;;
      if proceed then
        try_except (migrate_steps interactive backup legacy_path xdg_path)
                   (migrate_failed interactive)
      else ret false
  end.

Definition _get_migration_recommendation (needs_migration : bool)
    (legacy_path : option Path) (xdg_path : Path) : M Sys string :=
  if needs_migration then
    ret ("Run migration to move " +:+ str_opt legacy_path +:+ " to " +:+ path_str xdg_path)
  else
    both <-
      match legacy_path with
      | Some _ => exists_ xdg_path
      | None => ret false
      end ;;
    if both then
      ret ("Consider removing legacy config " +:+ str_opt legacy_path
           +:+ " (XDG config takes priority)")
    else
      xdg_exists <- exists_ xdg_path ;;
      if xdg_exists then ret "Configuration is XDG-compliant - no action needed"
      else ret "No configuration found - run save_config_template() to create template".

(** The dictionary [migration_status] returns, by key. *)
Record MigrationStatus := mkMigrationStatus {
  st_needs_migration : bool;
  st_legacy_exists : bool;
  st_legacy_path : option string;
  st_xdg_exists : bool;
  st_xdg_path : string;
  st_recommendation : string
}.

Definition migration_status : M Sys MigrationStatus :=
  needed <- check_migration_needed ;;
  let '(needs_migration, legacy_path, xdg_path) := needed in
  xdg_exists <- exists_ xdg_path ;;
  recommendation <- _get_migration_recommendation needs_migration legacy_path xdg_path ;;
  ret (mkMigrationStatus needs_migration
         (bool_decide (is_Some legacy_path))
         (path_str <$> legacy_path)
         xdg_exists
         (path_str xdg_path)
         recommendation).

(** *** setup-config.py *)

(** [load_config()] of [settings.py] reads and parses the configuration
    file; here it is a call into the world that returns a [Config] or
    [None], or raises. *)
Variable load_config : Extern Sys (option Config).

Definition required_vars : Dict string :=
  [ ("OPENAI_API_KEY", "OpenAI API access");
    ("OPENROUTER_API_KEY", "OpenRouter API access (optional)");
    ("ANTHROPIC_API_KEY", "Anthropic API access (optional)") ].

(** [found_vars[key]]. *)
Definition getitem (found_vars : gmap string bool) (key : string) : M Sys bool :=
  match found_vars !! key with
  | Some b => ret b
  | None => raise (mkExc (OtherException "KeyError") ("'" +:+ key +:+ "'") None)
  end.

(** The loop of [check_environment_variables] over [required_vars.items()].
    [found_vars] records [value is not None]; the line printed depends on
    [if value:], which is false for the empty string too. *)
Fixpoint check_vars (vars : list (string * string)) (found_vars : gmap string bool)
  : M Sys (gmap string bool) :=
  match vars with
  | [] => ret found_vars
  | (var_name, description) :: rest =>
      value <- getenv var_name ;;
      let found_vars := <[var_name := bool_decide (is_Some value)]> found_vars in
      match value with
      | Some (String c r) =>
          let value := String c r in
          let masked :=
            if decide (8 < str_len value)
            then str_slice_to 6 value +:+ "..." +:+ str_slice_last 4 value
            else "***" in
          print ("   ✅ " +:+ var_name +:+ ": " +:+ masked)
      | _ =>
          print ("   ⚠️  " +:+ var_name +:+ ": Not set (" +:+ description +:+ ")")
      end ;;
      check_vars rest found_vars
  end.

Definition check_environment_variables : M Sys bool :=
  print "🔍 Checking environment variables..." ;;
  found_vars <- check_vars (dict_items required_vars) ∅ ;;
  openai <- getitem found_vars "OPENAI_API_KEY" ;;
  has_provider_key <-
    (if openai then ret true else getitem found_vars "OPENROUTER_API_KEY") ;;
  if has_provider_key then
    print "✅ At least one provider API key is configured" ;;
    ret true
  else
    print "❌ No provider API keys found - set OPENAI_API_KEY or OPENROUTER_API_KEY" ;;
    ret false.

(** The loop of [validate_agent_configs] over [config.agents.items()];
    [false] is the [return False] inside it, [true] the loop running
    out. *)
Fixpoint validate_agents (config : Config) (entries : list (string * AgentConfig))
  : M Sys bool :=
  match entries with
  | [] => ret true
  | (agent_name, agent_config) :: rest =>
      print ("   🤖 " +:+ agent_name +:+ ":") ;;
      print ("      Profile: " +:+ profile agent_config) ;;
      match instructions agent_config with
      | Some (String c r) =>
          print ("      Instructions: " +:+ str_slice_to 50 (String c r) +:+ "...")
      | _ => ret tt
      end ;;
      (if truthy (fallbacks agent_config)
       then print ("      Fallbacks: " +:+ String.concat ", " (items (fallbacks agent_config)))
       else ret tt) ;;
      match profiles config !! profile agent_config with
      | None =>
          print ("      ❌ Profile '" +:+ profile agent_config +:+ "' not found") ;;
          ret false
      | Some _ => validate_agents config rest
      end
  end.

Definition validate_agent_configs : M Sys bool :=
  print "🔍 Validating agent configurations..." ;;
  try_except
    (config <- extern load_config ;;
     match config with
     | None => print "❌ No configuration loaded" ;; ret false
     | Some config =>
         match agents config with
         | [] => print "❌ No agents configured" ;; ret false
         | _ :: _ =>
             print ("✅ Found " +:+ pretty (length (agents config)) +:+ " agents:") ;;
             validate_agents config (dict_items (agents config))
         end
     end)
    (fun e =>
       print ("❌ Error validating agent configurations: " +:+ exc_str e) ;;
       ret false).

(** [ConfigSetup]: the paths are computed once, when the object is made;
    [project_root] is the global of the script. *)
Record ConfigSetup := mkConfigSetup {
  project_root : Path;
  xdg_config_dir : Path;
  xdg_config_file : Path
}.

Definition ConfigSetup__init__ (root : Path) : M Sys ConfigSetup :=
  config_dir <- get_tmuxbot_config_dir ;;
  config_file <- get_config_file_path ;;
  ret (mkConfigSetup root config_dir config_file).


(** The inner [try] has the handler [except PermissionError] only: any
    other exception goes on to the outer [except Exception]. *)
Definition validate_xdg_directory (self : ConfigSetup) : M Sys bool :=
  print "🔍 Validating XDG directory structure..." ;;
  try_except
    (dir_exists <- exists_ (xdg_config_dir self) ;;
     (if dir_exists then
        print ("✅ XDG config directory exists: " +:+ path_str (xdg_config_dir self))
      else
        print ("⚠️  XDG config directory does not exist: "
               +:+ path_str (xdg_config_dir self)) ;;
        print "   Will be created automatically when needed") ;;
     file_exists <- exists_ (xdg_config_file self) ;;
     (if file_exists then
        print ("✅ XDG config file exists: " +:+ path_str (xdg_config_file self))
      else
        print ("⚠️  XDG config file does not exist: "
               +:+ path_str (xdg_config_file self)) ;;
        print "   Run --create-template to create configuration template") ;;
     try_except
       (ensure_config_directory ;;
        print "✅ XDG directory permissions are valid" ;;
        ret true)
       (fun e =>
          if is_PermissionError e then
            print "❌ Permission denied accessing XDG config directory" ;;
            ret false
          else raise e))
    (fun e =>
       print ("❌ Error validating XDG directory: " +:+ exc_str e) ;;
       ret false).

(** *** migrate-config-xdg.py *)

(** [s * n]. *)
Fixpoint str_mul (s : string) (n : nat) : string :=
  match n with
  | 0 => ""
  | S n => s +:+ str_mul s n
  end.

Definition dry_run : M Sys bool :=
  print (nl +:+ "🔍 Dry Run - Migration Plan") ;;
  print (str_mul "-" 30) ;;
  needed <- check_migration_needed ;;
  let '(needs_migration, legacy_path, xdg_path) := needed in
  if negb needs_migration then
    match legacy_path with
    | None => print "🟢 No legacy configuration found - no migration needed"
    | Some _ =>
        xdg_exists <- exists_ xdg_path ;;
        if xdg_exists then
          print "🟠 Both legacy and XDG configs exist" ;;
          print ("   Legacy: " +:+ str_opt legacy_path) ;;
          print ("   XDG:    " +:+ path_str xdg_path) ;;
          print "   XDG config takes priority - consider removing legacy manually"
        else ret tt
    end ;;
    ret false
  else
    print "📋 Migration Plan:" ;;
    print ("   1. ✅ Create directory: " +:+ path_str (path_parent xdg_path)) ;;
    print ("   2. 📄 Copy file: " +:+ str_opt legacy_path +:+ " → " +:+ path_str xdg_path) ;;
    print "   3. 🔍 Preserve permissions and timestamps" ;;
    print ("   4. 📦 Create backup: " +:+ str_opt legacy_path +:+ ".backup") ;;
    print "   5. ✅ Validate migrated configuration" ;;
    ret true.

Definition validate_migrated_config (xdg_path : Path) : M Sys bool :=
  print (nl +:+ "🔍 Validating migrated configuration...") ;;
  try_except
    (file_exists <- exists_ xdg_path ;;
     if negb file_exists then
       print "❌ Configuration file not found at XDG location" ;;
       ret false
     else
       config <- extern load_config ;;
       match config with
       | None =>
           print "❌ Configuration could not be loaded" ;;
           ret false
       | Some config =>
           print "✅ Configuration validation successful" ;;
           print ("   📄 File: " +:+ path_str xdg_path) ;;
           print ("   👥 Profiles: " +:+ pretty (size (profiles config))) ;;
           print ("   🤖 Agents: " +:+ pretty (length (agents config))) ;;
           print ("   📚 Max history: " +:+ pretty (max_history config)) ;;
           print ("   ⏱️  Timeout: " +:+ pretty (conversation_timeout config) +:+ "s") ;;
           ret true
       end)
    (fun e =>
       print ("❌ Configuration validation failed: " +:+ exc_str e) ;;
       ret false).

Definition interactive_migration : M Sys bool :=
  print (nl +:+ "🚀 Starting Interactive Migration") ;;
  print (str_mul "-" 35) ;;
  needed <- check_migration_needed ;;
  let '(needs_migration, legacy_path, xdg_path) := needed in
  if negb needs_migration then
    print "ℹ️  Migration not needed" ;;
    ret true
  else
    success <- migrate_config true true ;;
    if success then
      valid <- validate_migrated_config xdg_path ;;
      if valid then
        print (nl +:+ "🎉 Migration completed successfully!") ;;
        print ("Configuration is now available at: " +:+ path_str xdg_path) ;;
        print ("You can remove the legacy config: " +:+ str_opt legacy_path) ;;
        ret true
      else
        print (nl +:+ "⚠️  Migration completed but validation failed") ;;
        print "Please check the configuration manually" ;;
        ret false
    else
      print (nl +:+ "❌ Migration failed") ;;
      ret false.

Definition non_interactive_migration : M Sys bool :=
  print (nl +:+ "🤖 Running Non-Interactive Migration") ;;
  print (str_mul "-" 38) ;;
  success <- migrate_config false true ;;
  if success then
    xdg_path <- get_config_file_path ;;
    valid <- validate_migrated_config xdg_path ;;
    if valid then
      print "✅ Non-interactive migration completed successfully" ;;
      ret true
    else
      print "❌ Migration completed but validation failed" ;;
      ret false
  else
    print "❌ Non-interactive migration failed" ;;
    ret false.

End System.

Arguments Sys : clear implicits.

(** [keeps f m]: whatever [m] returns or raises, it leaves the part [f]
    of the world as it found it. *)
Definition keeps {W A B} (f : W -> B) (m : M W A) : Prop :=
  forall s r s', m s = (r, s') -> f (world s') = f (world s).

(** [pure_read m]: [m] changes nothing at all. *)
Definition pure_read {W A} (m : M W A) : Prop :=
  forall s, (m s).2 = s.

(** [reads_only m]: [m] changes nothing, and what it returns or raises
    depends on the environment and the file system only. *)
Definition reads_only {FS A} (m : M (Sys FS) A) : Prop :=
  forall s, exists r,
    forall t, environ (world t) = environ (world s) -> fs (world t) = fs (world s) ->
              m t = (r, t).

(** The state with one more record, and with one more chunk of output. *)
Definition with_record {FS} (r : Logged) (s : St (Sys FS)) : St (Sys FS) :=
  mkSt (mkSys (environ (world s)) (fs (world s)) (stdout (world s)) (stdin (world s))
          (records (world s) ++ [r]))
       (log s) (calls s).

Definition with_output {FS} (chunk : string) (s : St (Sys FS)) : St (Sys FS) :=
  mkSt (mkSys (environ (world s)) (fs (world s)) (stdout (world s) ++ [chunk])
          (stdin (world s)) (records (world s)))
       (log s) (calls s).

(** What the terminal shows and holds. *)
Definition tty {FS} (w : Sys FS) : list string * list string := (stdout w, stdin w).

(** ** A concrete system

    Paths are strings joined with [/]; the file system is the list of the
    paths that exist (a file brings its directories) and a switch that
    keeps [mkdir] from making a directory; a copy needs the directory
    of its destination; the string methods are those of ASCII text. *)
Module SysScenario.

Record FS := mkFS { files : list string; mkdir_denied : bool }.

Definition Path : Type := string.

Definition join (p : Path) (name : string) : Path := p +:+ "/" +:+ name.

(** The index of the last occurrence of a character. *)
Fixpoint rfind_from (c : Ascii.ascii) (i : nat) (s : string) (found : option nat)
  : option nat :=
  match s with
  | EmptyString => found
  | String c' r =>
      rfind_from c (S i) r (if Ascii.eqb c c' then Some i else found)
  end.

Definition rfind (c : Ascii.ascii) (s : string) : option nat := rfind_from c 0 s None.

(** [with_suffix]: the suffix of a path starts at the last dot of its
    last component, when that dot is neither its first nor its last
    character; it is replaced, and a path without a suffix gets the new
    one appended. *)
Definition replace_suffix (p : Path) (suffix : string) : Path :=
  let start := match rfind (Ascii.ascii_of_nat 47) p with Some i => S i | None => 0 end in
  let name := String.substring start (String.length p - start) p in
  match rfind (Ascii.ascii_of_nat 46) name with
  | Some i =>
      if bool_decide (0 < i < String.length name - 1)
      then String.substring 0 (start + i) p +:+ suffix
      else p +:+ suffix
  | None => p +:+ suffix
  end.

(** [parent]: the path without its last component. *)
Definition parent_of (p : Path) : Path :=
  match rfind (Ascii.ascii_of_nat 47) p with
  | Some 0 => "/"
  | Some i => String.substring 0 i p
  | None => "."
  end.

Definition the_cwd (_ : FS) : Res Path := Ok "/work".

Definition the_home (env : gmap string string) (_ : FS) : Res Path :=
  match env !! "HOME" with
  | Some h => Ok h
  | None => Raise (mkExc RuntimeError "Could not determine home directory." None)
  end.

(** A path exists when it is the root, when it is listed, or when a
    listed path lies under it: a file brings its directories. *)
Definition has_path (p : Path) (fs : FS) : bool :=
  bool_decide (p = "/") || bool_decide (p ∈ files fs)
  || existsb (String.prefix (p +:+ "/")) (files fs).

Definition file_exists (p : Path) (fs : FS) : Res bool := Ok (has_path p fs).

(** [mkdir(parents=True, exist_ok=True)]: nothing to do for a directory
    that exists; [mkdir_denied] says that a missing one cannot be
    made. *)
Definition make_dir (p : Path) (fs : FS) : Res unit * FS :=
  if has_path p fs then (Ok tt, fs)
  else if mkdir_denied fs
  then (Raise (mkExc (OtherException "PermissionError")
                 ("[Errno 13] Permission denied: '" +:+ p +:+ "'") None), fs)
  else (Ok tt, mkFS (files fs ++ [p]) (mkdir_denied fs)).

(** [shutil.copy2]: the source must exist, and so must the directory of
    the destination. *)
Definition copy_file (src : option Path) (dst : Path) (fs : FS) : Res unit * FS :=
  match src with
  | Some src =>
      if has_path src fs
      then
        if has_path (parent_of dst) fs
        then (Ok tt, mkFS (files fs ++ [dst]) (mkdir_denied fs))
        else (Raise (mkExc (OtherException "FileNotFoundError")
                       ("[Errno 2] No such file or directory: '" +:+ dst +:+ "'") None), fs)
      else (Raise (mkExc (OtherException "FileNotFoundError")
                     ("[Errno 2] No such file or directory: '" +:+ src +:+ "'") None), fs)
  | None =>
      (Raise (mkExc (OtherException "TypeError") "expected str, bytes or os.PathLike object"
                None), fs)
  end.

Definition lower_char (c : Ascii.ascii) : Ascii.ascii :=
  let n := Ascii.nat_of_ascii c in
  if bool_decide (65 <= n <= 90) then Ascii.ascii_of_nat (n + 32) else c.

Fixpoint ascii_lower (s : string) : string :=
  match s with
  | EmptyString => EmptyString
  | String c r => String (lower_char c) (ascii_lower r)
  end.

Fixpoint lstrip (s : string) : string :=
  match s with
  | String c r => if Ascii.is_space c then lstrip r else s
  | EmptyString => s
  end.

Definition ascii_strip (s : string) : string :=
  String.rev (lstrip (String.rev (lstrip s))).

Definition take_last (n : nat) (s : string) : string :=
  String.substring (String.length s - n) n s.

#[export] Instance pathlib : PathLib Path FS := {|
  Path_of := id;
  joinpath := join;
  path_str := id;
  with_suffix := replace_suffix;
  path_parent := parent_of;
  path_cwd := the_cwd;
  path_home := the_home;
  path_exists := file_exists;
  mkdir := make_dir;
  copy2 := copy_file
|}.

#[export] Instance str_methods : StrMethods := {|
  str_lower := ascii_lower;
  str_strip := ascii_strip;
  str_len := String.length;
  str_slice_to n s := String.substring 0 n s;
  str_slice_last := take_last
|}.

Abbreviation Sys := (Sys FS).

Definition sys (env : list (string * string)) (existing : list string) (denied : bool)
    (lines : list string) : St Sys :=
  mkSt (mkSys (list_to_map env) (mkFS existing denied) [] lines []) [] [].

Definition home_env : list (string * string) := [("HOME", "/home/u")].

Definition run_migrate_config (interactive backup : bool) (s : St Sys) : Res bool * St Sys :=
  migrate_config interactive backup s.

Definition run_migration_status (s : St Sys) : Res MigrationStatus * St Sys :=
  migration_status s.

Definition run_check_environment_variables (s : St Sys) : Res bool * St Sys :=
  check_environment_variables s.

Definition load_config (cfg : option Config) : Extern Sys (option Config) :=
  fun w => (Ok cfg, w).

Definition run_validate_agent_configs (cfg : option Config) (s : St Sys)
  : Res bool * St Sys :=
  validate_agent_configs (load_config cfg) s.

(** A configuration without dangling references. *)
Definition good_cfg : Config :=
  mkConfig
    {[ "A" := Scenario.openai "gpt-4"; "B" := Scenario.openai "gpt-3.5-turbo" ]}
    [ ("x", mkAgentConfig "A" None (Some ["B"])) ]
    100 300.

End SysScenario.

(** ** Facts about the methods *)

Section FactoryFacts.

Context {Model World : Type}.
Variable import_module : string -> Extern World (ProviderModule Model World).

Abbreviation St := (St World).

Implicit Types (self : ModelFactory) (s : St) (e : Exc) (m : Model).
Implicit Types (agent_type profile_name : string) (agent_config : AgentConfig).

Ltac run := unfold bind, try_except, ret, raise, logger, spy, extern; cbn.

(** *** One construction *)

Lemma attempt_missing self profile_name s :
  profiles (config self) !! profile_name = None ->
  _create_model_for_profile import_module self profile_name s =
    (Ok None,
     mkSt (world s) (log s ++ [mkLog ERROR ("Profile not found: " +:+ profile_name)])
          (calls s ++ [profile_name])).
Proof.
  intros Hnone. unfold _create_model_for_profile. run. rewrite Hnone. reflexivity.
Qed.

(** A construction records its argument, only adds to the log, and
    never fails silently on a profile that exists unless the provider
    returned a null model. *)
Lemma attempt_calls self profile_name s r s' :
  _create_model_for_profile import_module self profile_name s = (r, s') ->
  calls s' = calls s ++ [profile_name] /\ exists l, log s' = log s ++ l.
Proof.
  unfold _create_model_for_profile. run.
  destruct (profiles (config self) !! profile_name) as [p|].
  - destruct (import_module _ _) as [[pm|e] w]; cbn.
    + destruct (create_model_attr pm) as [f|]; cbn.
      * destruct (f p w) as [[o|e] w']; cbn.
        -- intros [= <- <-]; cbn. split; [done|]. eexists.
           rewrite <- !app_assoc. reflexivity.
        -- destruct (exc_class e); cbn; intros [= <- <-]; cbn;
             (split; [done|]); eexists; rewrite <- !app_assoc; reflexivity.
      * intros [= <- <-]; cbn. split; [done|]. eexists.
        rewrite <- !app_assoc. reflexivity.
    + destruct (exc_class e); cbn; intros [= <- <-]; cbn;
        (split; [done|]); eexists; rewrite <- !app_assoc; reflexivity.
  - intros [= <- <-]; cbn. split; [done|]. eexists. reflexivity.
Qed.

(** A successful construction logged two debug notes and nothing else. *)
Lemma attempt_success_log self profile_name s m s' :
  _create_model_for_profile import_module self profile_name s = (Ok (Some m), s') ->
  exists p,
    profiles (config self) !! profile_name = Some p /\
    log s' = log s ++
      [mkLog DEBUG ("Attempting to create model for profile: "
                    +:+ provider p +:+ ":" +:+ model p);
       mkLog DEBUG ("Successfully imported provider module: tmuxbot.providers."
                    +:+ provider p)].
Proof.
  unfold _create_model_for_profile. run.
  destruct (profiles (config self) !! profile_name) as [p|]; [|discriminate].
  destruct (import_module _ _) as [[pm|e] w]; cbn.
  - destruct (create_model_attr pm) as [f|]; cbn.
    + destruct (f p w) as [[o|e] w']; cbn.
      * intros [= -> <-]; cbn. exists p. split; [done|].
        rewrite <- app_assoc. reflexivity.
      * destruct (exc_class e); cbn; discriminate.
    + discriminate.
  - destruct (exc_class e); cbn; discriminate.
Qed.

(** *** One turn of the loop *)

Lemma loop_null self agent_type agent_config profile_name rest last_error s s1 :
  _create_model_for_profile import_module self profile_name s = (Ok None, s1) ->
  for_profile_names import_module self agent_type agent_config (profile_name :: rest) last_error s =
  for_profile_names import_module self agent_type agent_config rest last_error s1.
Proof. intros H. cbn [for_profile_names]. unfold bind at 1, try_except, bind at 1. rewrite H. reflexivity. Qed.

Lemma loop_raise self agent_type agent_config profile_name rest last_error s e s1 :
  _create_model_for_profile import_module self profile_name s = (Raise e, s1) ->
  for_profile_names import_module self agent_type agent_config (profile_name :: rest) last_error s =
  for_profile_names import_module self agent_type agent_config rest (Some e)
    (logged (mkLog WARNING (profile_failed_msg agent_type profile_name e)) s1).
Proof. intros H. cbn [for_profile_names]. unfold bind at 1, try_except, bind at 1. rewrite H. reflexivity. Qed.

Lemma loop_success self agent_type agent_config profile_name rest last_error s m s1 :
  _create_model_for_profile import_module self profile_name s = (Ok (Some m), s1) ->
  for_profile_names import_module self agent_type agent_config (profile_name :: rest) last_error s =
  (Ok (inl m),
   logged (if decide (profile_name ≠ profile agent_config)
           then mkLog WARNING (fallback_used_msg agent_type (profile agent_config) profile_name)
           else mkLog DEBUG (primary_used_msg agent_type profile_name)) s1).
Proof.
  intros H. cbn [for_profile_names]. unfold bind at 1, try_except, bind at 1. rewrite H.
  destruct (decide (profile_name ≠ profile agent_config)); reflexivity.
Qed.

(** *** A run of failures *)

Lemma most_recent_error_cons o outs :
  most_recent_error (o :: outs) = carried o outs.
Proof.
  unfold carried, most_recent_error. destruct o as [e|]; cbn; [|by destruct (last _)].
  destruct (omap id outs) as [|e' l] eqn:E; [done|].
  change (last (e :: e' :: l)) with (last (e' :: l)).
  destruct (last (e' :: l)) eqn:El; [done|].
  apply last_None in El. discriminate.
Qed.

Lemma carried_cons last_error o outs :
  carried last_error (o :: outs) =
  carried (match o with Some e => Some e | None => last_error end) outs.
Proof.
  unfold carried at 1. rewrite most_recent_error_cons. unfold carried.
  destruct (most_recent_error outs); [done|]. by destruct o.
Qed.

(** The loop walks through a run of failures and goes on with what
    follows it. *)
Lemma loop_all_fail self agent_type agent_config names rest last_error s outs s1 :
  all_fail import_module self agent_type names s outs s1 ->
  for_profile_names import_module self agent_type agent_config (names ++ rest) last_error s =
  for_profile_names import_module self agent_type agent_config rest (carried last_error outs) s1.
Proof.
  intros H. revert last_error.
  induction H as [s|profile_name names s s1 outs s2 Hat _ IH
                   |profile_name names s e s1 outs s2 Hat _ IH]; intros last_error.
  - reflexivity.
  - rewrite <- app_comm_cons, (loop_null _ _ _ _ _ _ _ _ Hat), IH, carried_cons.
    reflexivity.
  - rewrite <- app_comm_cons, (loop_raise _ _ _ _ _ _ _ _ _ Hat), IH, carried_cons.
    reflexivity.
Qed.

Lemma all_fail_calls self agent_type names s outs s1 :
  all_fail import_module self agent_type names s outs s1 ->
  calls s1 = calls s ++ names.
Proof.
  induction 1 as [s|profile_name names s s1 outs s2 Hat _ IH
                   |profile_name names s e s1 outs s2 Hat _ IH].
  - by rewrite app_nil_r.
  - apply attempt_calls in Hat as [Hc _]. rewrite IH, Hc, <- app_assoc. reflexivity.
  - apply attempt_calls in Hat as [Hc _]. rewrite IH. cbn. rewrite Hc, <- app_assoc.
    reflexivity.
Qed.

(** Every candidate list either fails throughout, or splits at a first
    candidate that succeeds after a run of failures. *)
Lemma first_success_or_all_fail self agent_type names s :
  (exists outs s1, all_fail import_module self agent_type names s outs s1) \/
  (exists pre profile_name post outs s1 m s2,
      names = pre ++ profile_name :: post /\
      all_fail import_module self agent_type pre s outs s1 /\
      _create_model_for_profile import_module self profile_name s1 = (Ok (Some m), s2)).
Proof.
  revert s. induction names as [|profile_name names IH]; intros s.
  - left. exists [], s. constructor.
  - destruct (_create_model_for_profile import_module self profile_name s) as [[[m|]|e] s1] eqn:Hat.
    + right. exists [], profile_name, names, [], s, m, s1.
      split; [done|]. split; [constructor|done].
    + destruct (IH s1) as [(outs & s2 & Hall)
                          |(pre & pn & post & outs & s2 & m & s3 & -> & Hall & Hok)].
      * left. exists (None :: outs), s2. by eapply all_fail_null.
      * right. exists (profile_name :: pre), pn, post, (None :: outs), s2, m, s3.
        split; [done|]. split; [by eapply all_fail_null|done].
    + destruct (IH (logged (mkLog WARNING (profile_failed_msg agent_type profile_name e)) s1))
        as [(outs & s2 & Hall)
           |(pre & pn & post & outs & s2 & m & s3 & -> & Hall & Hok)].
      * left. exists (Some e :: outs), s2. by eapply all_fail_raise.
      * right. exists (profile_name :: pre), pn, post, (Some e :: outs), s2, m, s3.
        split; [done|]. split; [by eapply all_fail_raise|done].
Qed.

(** *** The spy is a ghost

    What a method returns, logs and does to the world does not depend on
    the spy trace. *)

Lemma attempt_ghost self profile_name s1 s2 :
  same_visible s1 s2 ->
  (_create_model_for_profile import_module self profile_name s1).1 =
  (_create_model_for_profile import_module self profile_name s2).1 /\
  same_visible (_create_model_for_profile import_module self profile_name s1).2
               (_create_model_for_profile import_module self profile_name s2).2.
Proof.
  destruct s1 as [w l c1], s2 as [w2 l2 c2]. intros [Hw Hl]. cbn in Hw, Hl. subst w2 l2.
  unfold _create_model_for_profile, same_visible. run.
  destruct (profiles (config self) !! profile_name) as [p|]; [|done].
  destruct (import_module _ _) as [[pm|e] w']; cbn.
  - destruct (create_model_attr pm) as [f|]; cbn; [|done].
    destruct (f p w') as [[o|e] w'']; cbn; [done|].
    by destruct (exc_class e).
  - by destruct (exc_class e).
Qed.

Lemma loop_ghost self agent_type agent_config names last_error s1 s2 :
  same_visible s1 s2 ->
  (for_profile_names import_module self agent_type agent_config names last_error s1).1 =
  (for_profile_names import_module self agent_type agent_config names last_error s2).1 /\
  same_visible
    (for_profile_names import_module self agent_type agent_config names last_error s1).2
    (for_profile_names import_module self agent_type agent_config names last_error s2).2.
Proof.
  revert last_error s1 s2. induction names as [|profile_name names IH]; intros last_error s1 s2 Hs.
  - done.
  - destruct (attempt_ghost self profile_name s1 s2 Hs) as [Hr Hs'].
    destruct (_create_model_for_profile import_module self profile_name s1)
      as [[[m|]|e] t1] eqn:H1;
      destruct (_create_model_for_profile import_module self profile_name s2)
        as [r2 t2] eqn:H2; cbn in Hr, Hs'; subst r2.
    + rewrite (loop_success _ _ _ _ _ _ _ _ _ H1), (loop_success _ _ _ _ _ _ _ _ _ H2).
      destruct Hs' as [Hw Hl]. split; [done|]. split; cbn; congruence.
    + rewrite (loop_null _ _ _ _ _ _ _ _ H1), (loop_null _ _ _ _ _ _ _ _ H2). by apply IH.
    + rewrite (loop_raise _ _ _ _ _ _ _ _ _ H1), (loop_raise _ _ _ _ _ _ _ _ _ H2).
      apply IH. destruct Hs' as [Hw Hl]. split; cbn; congruence.
Qed.

Lemma create_model_ghost self agent_type s1 s2 :
  same_visible s1 s2 ->
  (create_model import_module self agent_type s1).1 =
  (create_model import_module self agent_type s2).1 /\
  same_visible (create_model import_module self agent_type s1).2
               (create_model import_module self agent_type s2).2.
Proof.
  intros Hs. unfold create_model.
  destruct (dict_get (agents (config self)) agent_type) as [agent_config|].
  - unfold bind at 1 3 5 7.
    destruct (loop_ghost self agent_type agent_config (profile_names agent_config) None
                s1 s2 Hs) as [Hr Hs'].
    destruct (for_profile_names _ _ _ _ _ _ s1) as [r1 t1];
      destruct (for_profile_names _ _ _ _ _ _ s2) as [r2 t2]; cbn in Hr, Hs'; subst r2.
    destruct Hs' as [Hw Hl].
    destruct r1 as [[m|[e|]]|e]; cbn; (split; [done|]); split; cbn; congruence.
  - destruct Hs as [Hw Hl]. cbn. split; [done|]. split; cbn; congruence.
Qed.

(** *** The whole of [create_model] *)

Lemma create_model_all_fail self agent_type agent_config s outs s1 :
  dict_get (agents (config self)) agent_type = Some agent_config ->
  all_fail import_module self agent_type (profile_names agent_config) s outs s1 ->
  create_model import_module self agent_type s =
    (Ok None,
     logged (mkLog ERROR match most_recent_error outs with
                         | Some e => all_failed_msg agent_type e
                         | None => no_valid_profiles_msg agent_type
                         end) s1).
Proof.
  intros Hag Hall. unfold create_model. rewrite Hag. unfold bind at 1.
  rewrite <- (app_nil_r (profile_names agent_config)).
  rewrite (loop_all_fail _ _ agent_config _ [] None _ _ _ Hall).
  unfold carried. cbn. by destruct (most_recent_error outs).
Qed.

Lemma create_model_first_success
    self agent_type agent_config pre profile_name post s outs s1 m s2 :
  dict_get (agents (config self)) agent_type = Some agent_config ->
  profile_names agent_config = pre ++ profile_name :: post ->
  all_fail import_module self agent_type pre s outs s1 ->
  _create_model_for_profile import_module self profile_name s1 = (Ok (Some m), s2) ->
  create_model import_module self agent_type s =
    (Ok (Some m),
     logged (if decide (profile_name ≠ profile agent_config)
             then mkLog WARNING
                    (fallback_used_msg agent_type (profile agent_config) profile_name)
             else mkLog DEBUG (primary_used_msg agent_type profile_name)) s2).
Proof.
  intros Hag Hsplit Hall Hok. unfold create_model. rewrite Hag, Hsplit. unfold bind at 1.
  rewrite (loop_all_fail _ _ agent_config _ _ None _ _ _ Hall).
  rewrite (loop_success _ _ _ _ _ _ _ _ _ Hok). reflexivity.
Qed.

Lemma profile_names_default agent_config :
  profile_names agent_config =
  profile agent_config :: default [] (fallbacks agent_config).
Proof.
  unfold profile_names. by destruct (fallbacks agent_config) as [[|? ?]|].
Qed.

(** *** The claims *)

(** C1.  For an agent of the configuration, the candidate list of
    [create_model] is the primary profile followed by the fallbacks as
    declared (nothing when they are absent), duplicates and order kept;
    the profiles that are tried are an initial, non-empty segment of that
    list, in its order, and all of it when no model is returned. *)
Theorem C1_candidates_in_declared_order self agent_type agent_config s r s' :
  dict_get (agents (config self)) agent_type = Some agent_config ->
  create_model import_module self agent_type s = (r, s') ->
  profile_names agent_config
    = [profile agent_config] ++ default [] (fallbacks agent_config) /\
  (exists n, n < length (profile_names agent_config) /\
             calls s' = calls s ++ take (S n) (profile_names agent_config)) /\
  (r = Ok None -> calls s' = calls s ++ profile_names agent_config).
Proof.
  intros Hag Hrun. split; [apply profile_names_default|].
  destruct (first_success_or_all_fail self agent_type (profile_names agent_config) s)
    as [(outs & s1 & Hall)|(pre & pn & post & outs & s1 & m & s2 & Hsplit & Hall & Hok)].
  - rewrite (create_model_all_fail _ _ _ _ _ _ Hag Hall) in Hrun.
    injection Hrun as <- <-. cbn [calls logged].
    rewrite (all_fail_calls _ _ _ _ _ _ Hall). split; [|done].
    exists (pred (length (profile_names agent_config))).
    assert (0 < length (profile_names agent_config))
      by (rewrite profile_names_default; cbn; lia).
    split; [lia|]. rewrite take_ge by lia. reflexivity.
  - rewrite (create_model_first_success _ _ _ _ _ _ _ _ _ _ _ Hag Hsplit Hall Hok) in Hrun.
    injection Hrun as <- <-. cbn [calls logged].
    apply attempt_calls in Hok as [-> _].
    rewrite (all_fail_calls _ _ _ _ _ _ Hall), Hsplit. split; [|done].
    exists (length pre). rewrite length_app. cbn. split; [lia|].
    rewrite <- app_assoc. f_equal.
    rewrite (cons_middle pn pre post), app_assoc.
    symmetry. apply take_app_length'. rewrite length_app. cbn. lia.
Qed.

(** C2.  When the candidates before some candidate all fail and that
    candidate's construction yields a model, [create_model] returns that
    very model, has tried the failed candidates and this one and none
    after it, and leaves the world as that construction left it.  When
    the primary itself succeeds, exactly one construction was tried. *)
Theorem C2_first_success_returned
    self agent_type agent_config pre profile_name post s outs s1 m s2 :
  dict_get (agents (config self)) agent_type = Some agent_config ->
  profile_names agent_config = pre ++ profile_name :: post ->
  all_fail import_module self agent_type pre s outs s1 ->
  _create_model_for_profile import_module self profile_name s1 = (Ok (Some m), s2) ->
  exists s',
    create_model import_module self agent_type s = (Ok (Some m), s') /\
    calls s' = calls s ++ pre ++ [profile_name] /\
    world s' = world s2 /\
    (pre = [] -> calls s' = calls s ++ [profile agent_config]).
Proof.
  intros Hag Hsplit Hall Hok. eexists. split.
  { exact (create_model_first_success _ _ _ _ _ _ _ _ _ _ _ Hag Hsplit Hall Hok). }
  cbn. apply attempt_calls in Hok as [Hc _].
  rewrite Hc, (all_fail_calls _ _ _ _ _ _ Hall), <- app_assoc.
  split; [done|]. split; [done|].
  intros ->. rewrite profile_names_default in Hsplit. by injection Hsplit as <- _.
Qed.

(** Whatever the agent name, the state, and the behaviour of the
    import and of the providers, as long as what they raise is an
    [Exception], [create_model] returns (a model or [None]): what
    [_create_model_for_profile] raises is caught in the loop. *)
Lemma create_model_catches_exceptions self agent_type s :
  exists (result : option Model) s',
    create_model import_module self agent_type s = (Ok result, s').
Proof.
  destruct (dict_get (agents (config self)) agent_type) as [agent_config|] eqn:Hag.
  - destruct (first_success_or_all_fail self agent_type (profile_names agent_config) s)
      as [(outs & s1 & Hall)|(pre & pn & post & outs & s1 & m & s2 & Hsplit & Hall & Hok)].
    + eexists _, _. exact (create_model_all_fail _ _ _ _ _ _ Hag Hall).
    + eexists _, _.
      exact (create_model_first_success _ _ _ _ _ _ _ _ _ _ _ Hag Hsplit Hall Hok).
  - unfold create_model. rewrite Hag. eexists _, _. reflexivity.
Qed.

(** C4.  For an agent name that the configuration lacks, the empty
    name included, [create_model] returns [None] at once: it logs the
    one error "Agent configuration not found: <name>", tries no
    construction and leaves the world alone. *)
Theorem C4_agent_not_found self agent_type s :
  dict_get (agents (config self)) agent_type = None ->
  create_model import_module self agent_type s =
    (Ok None,
     mkSt (world s)
          (log s ++ [mkLog ERROR ("Agent configuration not found: " +:+ agent_type)])
          (calls s)).
Proof. intros Hag. unfold create_model. rewrite Hag. reflexivity. Qed.


(** C6 (amended).  A candidate whose profile name the profile mapping
    lacks is a failed candidate: its construction calls no provider,
    logs the error "Profile not found: <name>" and returns [None]; the
    loop goes on to the next candidate with [last_error] as it was. *)
Theorem C6_missing_profile_is_skipped
    self agent_type agent_config profile_name rest last_error s :
  profiles (config self) !! profile_name = None ->
  let s1 := mkSt (world s)
                 (log s ++ [mkLog ERROR ("Profile not found: " +:+ profile_name)])
                 (calls s ++ [profile_name]) in
  _create_model_for_profile import_module self profile_name s = (Ok None, s1) /\
  for_profile_names import_module self agent_type agent_config (profile_name :: rest) last_error s =
  for_profile_names import_module self agent_type agent_config rest last_error s1.
Proof.
  intros Hnone s1. pose proof (attempt_missing self profile_name s Hnone) as Hat.
  split; [exact Hat|]. exact (loop_null _ _ _ _ _ _ _ _ Hat).
Qed.


(** C8 (amended).  When resolution succeeds on a candidate whose name
    differs from the primary profile, the last record logged is a
    warning naming the primary, the profile used and the agent; when the
    name is the primary's, it is a debug note naming the profile and the
    agent.  When the candidate is the first, only debug notes were
    logged. *)
Theorem C8_success_note
    self agent_type agent_config pre profile_name post s outs s1 m s2 :
  dict_get (agents (config self)) agent_type = Some agent_config ->
  profile_names agent_config = pre ++ profile_name :: post ->
  all_fail import_module self agent_type pre s outs s1 ->
  _create_model_for_profile import_module self profile_name s1 = (Ok (Some m), s2) ->
  exists s',
    create_model import_module self agent_type s = (Ok (Some m), s') /\
    (profile_name <> profile agent_config ->
       log s' = log s2 ++
         [mkLog WARNING ("Primary profile '" +:+ profile agent_config
                         +:+ "' failed, using fallback '" +:+ profile_name
                         +:+ "' for agent '" +:+ agent_type +:+ "'")]) /\
    (profile_name = profile agent_config ->
       log s' = log s2 ++
         [mkLog DEBUG ("Using primary profile '" +:+ profile_name
                       +:+ "' for agent '" +:+ agent_type +:+ "'")]) /\
    (pre = [] ->
       profile_name = profile agent_config /\
       Forall (fun rec => levelname rec = DEBUG) (emitted s s')).
Proof.
  intros Hag Hsplit Hall Hok. eexists. split.
  { exact (create_model_first_success _ _ _ _ _ _ _ _ _ _ _ Hag Hsplit Hall Hok). }
  cbn [log logged]. split; [|split].
  - intros Hne. by rewrite decide_True.
  - intros Heq. by rewrite decide_False by (intros Hne; by apply Hne).
  - intros ->. rewrite profile_names_default in Hsplit. injection Hsplit as <- _.
    split; [done|]. inversion Hall; subst.
    apply attempt_success_log in Hok as (p & _ & Hlog).
    rewrite decide_False by (intros Hne; by apply Hne).
    unfold emitted, logged. cbn [log]. rewrite Hlog, <- app_assoc, drop_app_length.
    repeat constructor.
Qed.

(** *** Construction of the factory *)

Lemma for_each_fallbacks self agent_name (names : list string) s :
  for_each names (fun fallback_profile =>
      match profiles (config self) !! fallback_profile with
      | None => logger WARNING (fallback_warning agent_name fallback_profile)
      | Some _ => ret tt
      end) s =
  (Ok tt,
   mkSt (world s)
        (log s ++ ((fun '(a, n) => mkLog WARNING (fallback_warning a n)) <$>
                   (names ≫= fun n => if decide (profiles (config self) !! n = None)
                                      then [(agent_name, n)] else [])))
        (calls s)).
Proof.
  revert s. induction names as [|n names IH]; intros s.
  - cbn. rewrite app_nil_r. by destruct s.
  - cbn [for_each]. unfold bind at 1.
    destruct (profiles (config self) !! n) as [p|] eqn:Hp.
    + unfold ret at 1. rewrite IH. cbn. rewrite Hp.
      rewrite decide_False by done. reflexivity.
    + unfold logger at 1. rewrite IH. cbn. rewrite Hp.
      rewrite decide_True by done. cbn. rewrite <- app_assoc. reflexivity.
Qed.

Lemma validate_spec self s :
  _validate_fallback_configuration self s =
  (Ok tt, mkSt (world s) (log s ++ validation_warnings (config self)) (calls s)).
Proof.
  unfold _validate_fallback_configuration, validation_warnings, missing_fallbacks, dict_items.
  revert s. induction (agents (config self)) as [|[a ac] l IH]; intros s.
  - cbn. rewrite app_nil_r. by destruct s.
  - cbn [for_each]. unfold bind at 1. cbn [mbind list_bind]. rewrite fmap_app.
    assert (Hinner :
      (if truthy (fallbacks ac)
       then for_each (items (fallbacks ac)) (fun fallback_profile =>
              match profiles (config self) !! fallback_profile with
              | None => logger WARNING (fallback_warning a fallback_profile)
              | Some _ => ret tt
              end)
       else ret tt) s =
      (Ok tt,
       mkSt (world s)
            (log s ++ ((fun '(a, n) => mkLog WARNING (fallback_warning a n)) <$>
                       (default [] (fallbacks ac) ≫= fun n =>
                          if decide (profiles (config self) !! n = None)
                          then [(a, n)] else [])))
            (calls s))).
    { destruct (fallbacks ac) as [[|n names]|]; cbn [truthy items default].
      - cbn. rewrite app_nil_r. by destruct s.
      - apply for_each_fallbacks.
      - cbn. rewrite app_nil_r. by destruct s. }
    rewrite Hinner, IH. cbn [world log calls]. rewrite <- app_assoc. reflexivity.
Qed.

Lemma elem_of_missing_fallbacks cfg a n :
  (a, n) ∈ missing_fallbacks cfg <->
  exists ac, (a, ac) ∈ agents cfg /\ n ∈ default [] (fallbacks ac) /\
             profiles cfg !! n = None.
Proof.
  unfold missing_fallbacks. rewrite list_elem_of_bind. split.
  - intros ([a' ac] & Hin & Hag). apply list_elem_of_bind in Hin as (n' & Hin & Hn').
    destruct (decide (profiles cfg !! n' = None)) as [Hnone|]; [|by apply elem_of_nil in Hin].
    apply list_elem_of_singleton in Hin as [= -> ->]. eauto.
  - intros (ac & Hag & Hn & Hnone). exists (a, ac). split; [|done].
    apply list_elem_of_bind. exists n. split; [|done].
    rewrite decide_True by done. apply list_elem_of_singleton. reflexivity.
Qed.


(** *** A primary profile that does not exist *)

Lemma dict_get_elem_of {V} (d : Dict V) k v :
  dict_wf d -> (k, v) ∈ d -> dict_get d k = Some v.
Proof.
  unfold dict_wf. induction d as [|[k' v'] d IH]; intros Hwf Hin.
  - by apply elem_of_nil in Hin.
  - cbn in Hwf. apply NoDup_cons in Hwf as [Hk' Hwf]. cbn.
    apply elem_of_cons in Hin as [[= -> ->]|Hin].
    + by rewrite decide_True.
    + rewrite decide_False; [by apply IH|].
      intros ->. apply Hk'. apply list_elem_of_fmap. by exists (k, v).
Qed.

Lemma all_fail_log self agent_type names s outs s1 :
  all_fail import_module self agent_type names s outs s1 ->
  exists l, log s1 = log s ++ l.
Proof.
  induction 1 as [s|profile_name names s s1 outs s2 Hat _ [l IH]
                   |profile_name names s e s1 outs s2 Hat _ [l IH]].
  - exists []. by rewrite app_nil_r.
  - apply attempt_calls in Hat as [_ [l1 Hl1]]. rewrite IH, Hl1, <- app_assoc. eauto.
  - apply attempt_calls in Hat as [_ [l1 Hl1]]. rewrite IH. cbn.
    rewrite Hl1, <- !app_assoc. eauto.
Qed.

(** C10.  The validation pass looks at fallback names only.  For an
    agent whose primary profile the profile mapping lacks while all its
    fallback names are there, constructing the factory logs warnings for
    (agent, fallback) pairs none of which is of that agent; the missing
    primary shows when [create_model] runs for the agent: its first
    construction is that of the primary, and the first record it logs is
    the error "Profile not found: <primary>". *)
Theorem C10_dangling_primary_found_on_resolve (cfg : Config) agent_name agent_config s :
  dict_wf (agents cfg) ->
  (agent_name, agent_config) ∈ agents cfg ->
  profiles cfg !! profile agent_config = None ->
  Forall (fun n => is_Some (profiles cfg !! n)) (default [] (fallbacks agent_config)) ->
  (exists pairs,
      __init__ cfg s =
        (Ok (mkModelFactory cfg),
         mkSt (world s)
              (log s ++ ((fun '(a, n) => mkLog WARNING (fallback_warning a n)) <$> pairs))
              (calls s)) /\
      forall n, (agent_name, n) ∉ pairs) /\
  (exists r s' cs l,
      create_model import_module (mkModelFactory cfg) agent_name s = (r, s') /\
      calls s' = calls s ++ profile agent_config :: cs /\
      log s' = log s ++ mkLog ERROR ("Profile not found: " +:+ profile agent_config) :: l).
Proof.
  intros Hwf Hin Hnone Hfb. split.
  - exists (missing_fallbacks cfg). split.
    + unfold __init__. unfold bind. rewrite validate_spec. reflexivity.
    + intros n (ac & Hin' & Hn & Hnone')%elem_of_missing_fallbacks.
      assert (ac = agent_config) as ->.
      { apply (dict_get_elem_of _ _ _ Hwf) in Hin, Hin'. congruence. }
      rewrite Forall_forall in Hfb. destruct (Hfb n Hn) as [p Hp]. congruence.
  - pose proof (dict_get_elem_of _ _ _ Hwf Hin) as Hag.
    set (self := mkModelFactory cfg) in *.
    pose proof (attempt_missing self (profile agent_config) s Hnone) as Hat.
    destruct (first_success_or_all_fail self agent_name
                (default [] (fallbacks agent_config))
                (mkSt (world s)
                      (log s ++ [mkLog ERROR ("Profile not found: "
                                              +:+ profile agent_config)])
                      (calls s ++ [profile agent_config])))
      as [(outs & s1 & Hall)|(pre & pn & post & outs & s1 & m & s2 & Hsplit & Hall & Hok)].
    + pose proof (all_fail_null _ _ _ _ _ _ _ _ _ Hat Hall) as Hall'.
      rewrite <- profile_names_default in Hall'.
      pose proof (create_model_all_fail self _ _ _ _ _ Hag Hall') as Hrun.
      pose proof (all_fail_calls _ _ _ _ _ _ Hall) as Hc.
      destruct (all_fail_log _ _ _ _ _ _ Hall) as [l Hl]. cbn [calls log] in Hc, Hl.
      eexists _, _, (default [] (fallbacks agent_config)), (l ++ [_]).
      split; [exact Hrun|]. cbn [calls log logged].
      rewrite Hc, Hl, <- !app_assoc. split; reflexivity.
    + pose proof (all_fail_null _ _ _ _ _ _ _ _ _ Hat Hall) as Hall'.
      assert (profile_names agent_config = (profile agent_config :: pre) ++ pn :: post)
        as Hsplit' by (rewrite profile_names_default, Hsplit; reflexivity).
      pose proof (create_model_first_success self _ _ _ _ _ _ _ _ _ _
                    Hag Hsplit' Hall' Hok) as Hrun.
      apply attempt_calls in Hok as [Hc2 [l2 Hl2]].
      pose proof (all_fail_calls _ _ _ _ _ _ Hall) as Hc.
      destruct (all_fail_log _ _ _ _ _ _ Hall) as [l Hl]. cbn [calls log] in Hc, Hl.
      eexists _, _, (pre ++ [pn]), (l ++ l2 ++ [_]).
      split; [exact Hrun|]. cbn [calls log logged].
      rewrite Hc2, Hl2, Hc, Hl, <- !app_assoc. split; reflexivity.
Qed.

End FactoryFacts.
(** ** The claims on the mocked provider *)

Section OnScenario.

Import Scenario.

Ltac run := vm_compute; reflexivity.

(** The per-candidate construction does raise: a provider error leaves
    [_create_model_for_profile] as a [RuntimeError]. *)
Example attempt_raises :
  exists e s', _create_model_for_profile import_module factory "A" (start [boom]) = (Raise e, s') /\ exc_class e = RuntimeError.
Proof. eexists _, _. split; run. Qed.

(** A provider module without [create_model] ends as a [RuntimeError]
    too, the [ValueError] raised inside the [try] being wrapped. *)
Example attempt_without_create_model :
  exists e s',
    _create_model_for_profile (World := unit) (Model := string)
      (fun _ w => (Ok (mkProviderModule None), w)) factory "A" (mkSt tt [] [])
    = (Raise e, s') /\
    exc_class e = RuntimeError /\
    exc_str e = "An unexpected error occurred while loading provider 'openai': "
                +:+ "Provider module 'openai' does not have a 'create_model' function".
Proof. eexists _, _. repeat split; run. Qed.

Lemma C1_witness :
  profile_names (mkAgentConfig "A" None (Some ["B"])) = ["A"] ++ ["B"] /\
  (exists n, n < 2 /\
     calls (run_create_model "x" [boom; Ok (Some "m2")]).2 = [] ++ take (S n) ["A"; "B"]).
Proof.
  edestruct (C1_candidates_in_declared_order import_module factory "x"
               (mkAgentConfig "A" None (Some ["B"])) (start [boom; Ok (Some "m2")]))
    as (H1 & H2 & _).
  - run.
  - run.
  - split; [exact H1 | exact H2].
Defined.

Lemma C2_witness :
  exists s',
    run_create_model "x" [boom; Ok (Some "m2")] = (Ok (Some "m2"), s') /\
    calls s' = [] ++ ["A"] ++ ["B"].
Proof.
  edestruct (C2_first_success_returned import_module factory "x"
               (mkAgentConfig "A" None (Some ["B"])) ["A"] "B" []
               (start [boom; Ok (Some "m2")])) as (s' & Hrun & Hcalls & _).
  - run.
  - run.
  - eapply all_fail_raise; [run|]. apply all_fail_nil.
  - run.
  - exists s'. split; [exact Hrun | exact Hcalls].
Defined.

Lemma C4_witness :
  run_create_model "" [] =
    (Ok None, mkSt [] ([] ++ [mkLog ERROR ("Agent configuration not found: " +:+ "")]) []).
Proof. apply (C4_agent_not_found import_module factory "" (start [])). run. Defined.



Lemma C6_witness :
  _create_model_for_profile import_module factory "Z" (start []) =
    (Ok None, mkSt [] ([] ++ [mkLog ERROR ("Profile not found: " +:+ "Z")]) ([] ++ ["Z"])) /\
  for_profile_names import_module factory "y" (mkAgentConfig "A" None (Some ["Z"]))
    ("Z" :: []) None (start []) =
  for_profile_names import_module factory "y" (mkAgentConfig "A" None (Some ["Z"]))
    [] None
    (mkSt [] ([] ++ [mkLog ERROR ("Profile not found: " +:+ "Z")]) ([] ++ ["Z"])).
Proof.
  apply (C6_missing_profile_is_skipped import_module factory "y"
           (mkAgentConfig "A" None (Some ["Z"])) "Z" [] None (start [])).
  run.
Defined.

(** C6 as stated fails.  Agent [z] has the primary [Z], which is not a
    profile, and no fallbacks: the loop ends with no [last_error] at
    all, and the final error is the one for "no error recorded".  For
    agent [y] (primary [A] raising, fallback [Z] missing) the error kept
    to the end is that of [A], not a "profile not found" for [Z]. *)
Lemma C6_counterexample :
  profiles cfg !! "Z" = None /\
  ~ (exists e s',
       for_profile_names import_module factory "z" (mkAgentConfig "Z" None None)
         ["Z"] None (start []) = (Ok (inr (Some e)), s')) /\
  log (run_create_model "z" []).2 =
    [mkLog ERROR "Profile not found: Z";
     mkLog ERROR "No valid profiles found for agent 'z'"] /\
  last (log (run_create_model "y" [boom]).2) =
    Some (mkLog ERROR ("All profiles failed for agent 'y'. Last error: "
                       +:+ "An unexpected error occurred while loading provider 'openai': "
                       +:+ "Primary failed")).
Proof.
  split; [run|]. split; [|split; run].
  intros (e & s' & H). vm_compute in H. discriminate H.
Qed.



Lemma C8_witness :
  exists s',
    run_create_model "x" [boom; Ok (Some "m2")] = (Ok (Some "m2"), s') /\
    last (log s') =
      Some (mkLog WARNING "Primary profile 'A' failed, using fallback 'B' for agent 'x'").
Proof.
  edestruct (C8_success_note import_module factory "x"
               (mkAgentConfig "A" None (Some ["B"])) ["A"] "B" []
               (start [boom; Ok (Some "m2")])) as (s' & Hrun & Hwarn & _).
  - run.
  - run.
  - eapply all_fail_raise; [run|]. apply all_fail_nil.
  - run.
  - exists s'. split; [exact Hrun|]. rewrite Hwarn by discriminate.
    apply last_snoc.
Defined.

(** C8 as stated fails.  Agent [dup] lists its primary [A] again as a
    fallback; the provider raises on the first call and returns a model
    on the second.  Resolution succeeds on the candidate at index 1, and
    the only warning logged is that of the failed first construction:
    the last record is the debug note for the primary. *)
Lemma C8_counterexample :
  (run_create_model "dup" [boom; Ok (Some "m2")]).1 = Ok (Some "m2") /\
  calls (run_create_model "dup" [boom; Ok (Some "m2")]).2 = ["A"; "A"] /\
  filter (fun rec => levelname rec = WARNING)
    (log (run_create_model "dup" [boom; Ok (Some "m2")]).2) =
    [mkLog WARNING ("Profile 'A' failed for agent 'dup': "
                    +:+ "An unexpected error occurred while loading provider 'openai': "
                    +:+ "Primary failed")] /\
  last (log (run_create_model "dup" [boom; Ok (Some "m2")]).2) =
    Some (mkLog DEBUG "Using primary profile 'A' for agent 'dup'").
Proof. repeat split; run. Qed.

Lemma C10_witness :
  (exists pairs,
      __init__ cfg (start [Ok (Some "m")]) =
        (Ok (mkModelFactory cfg),
         mkSt [Ok (Some "m")]
              ([] ++ ((fun '(a, n) => mkLog WARNING (fallback_warning a n)) <$> pairs))
              []) /\
      forall n, ("w", n) ∉ pairs) /\
  (exists r s' cs l,
      run_create_model "w" [Ok (Some "m")] = (r, s') /\
      calls s' = [] ++ "Z" :: cs /\
      log s' = [] ++ mkLog ERROR ("Profile not found: " +:+ "Z") :: l).
Proof.
  apply (C10_dangling_primary_found_on_resolve import_module cfg "w"
           (mkAgentConfig "Z" (Some "dangling primary") (Some ["B"]))
           (start [Ok (Some "m")])).
  - unfold dict_wf. apply (bool_decide_unpack _). vm_compute. exact I.
  - do 4 apply list_elem_of_further. apply list_elem_of_here.
  - run.
  - repeat constructor. eexists. run.
Defined.

End OnScenario.

(** ** More about the factory

    Properties of [_create_model_for_profile], [create_model] and
    [__init__] beyond the claims of the specification. *)

Section FactoryMore.

Context {Model World : Type}.
Variable import_module : string -> Extern World (ProviderModule Model World).

Implicit Types (self : ModelFactory) (s : St World) (e : Exc) (m : Model).
Implicit Types (agent_type profile_name : string) (agent_config : AgentConfig).


(** *** What one construction can raise *)


(** A provider module that has no [create_model] ends as a
    [RuntimeError], not as the [ValueError] raised for it: that
    [ValueError] is raised inside the [try] and the last clause wraps
    it.  The provider is not called. *)
Theorem attempt_module_lacks_create_model self profile_name p s pm w1 :
  profiles (config self) !! profile_name = Some p ->
  import_module ("tmuxbot.providers." +:+ provider p) (world s) = (Ok pm, w1) ->
  create_model_attr pm = None ->
  exists e s',
    _create_model_for_profile import_module self profile_name s = (Raise e, s') /\
    exc_class e = RuntimeError /\
    exc_str e = "An unexpected error occurred while loading provider '" +:+ provider p
                +:+ "': " +:+ no_create_model_msg (provider p) /\
    exc_cause e = Some (mkExc ValueError (no_create_model_msg (provider p)) None) /\
    world s' = w1 /\
    last (log s') = Some (mkLog ERROR (exc_str e)).
Proof.
  intros Hp Himp Hattr.
  unfold _create_model_for_profile, bind, try_except, ret, raise, logger, spy, extern.
  cbn -[String.append]. rewrite Hp. cbn -[String.append]. rewrite Himp.
  cbn -[String.append]. rewrite Hattr. cbn -[String.append].
  eexists _, _. split; [reflexivity|]. cbn -[String.append]. rewrite last_snoc. done.
Qed.

(** An [ImportError] raised by the provider's own [create_model], after
    the module was imported, is reported as an unsupported provider
    whose module could not be found. *)
Theorem attempt_provider_import_error self profile_name p s pm w1 f err w2 :
  profiles (config self) !! profile_name = Some p ->
  import_module ("tmuxbot.providers." +:+ provider p) (world s) = (Ok pm, w1) ->
  create_model_attr pm = Some f ->
  f p w1 = (Raise err, w2) ->
  exc_class err = ImportError ->
  _create_model_for_profile import_module self profile_name s =
    (Raise (mkExc ValueError
              ("Unsupported provider specified: '" +:+ provider p
               +:+ "'. Could not find provider module 'tmuxbot.providers."
               +:+ provider p +:+ "'")
              (Some err)),
     mkSt w2
       (log s ++
        [mkLog DEBUG ("Attempting to create model for profile: "
                      +:+ provider p +:+ ":" +:+ model p);
         mkLog DEBUG ("Successfully imported provider module: tmuxbot.providers."
                      +:+ provider p);
         mkLog ERROR ("Unsupported provider specified: '" +:+ provider p
                      +:+ "'. Could not find provider module 'tmuxbot.providers."
                      +:+ provider p +:+ "'")])
       (calls s ++ [profile_name])).
Proof.
  intros Hp Himp Hattr Hf Hcls.
  unfold _create_model_for_profile, bind, try_except, ret, raise, logger, spy, extern.
  cbn -[String.append]. rewrite Hp. cbn -[String.append]. rewrite Himp.
  cbn -[String.append]. rewrite Hattr. cbn -[String.append]. rewrite Hf.
  cbn -[String.append]. rewrite Hcls. cbn -[String.append].
  rewrite <- !app_assoc. reflexivity.
Qed.

(** *** Where a model comes from *)

Lemma attempt_success_inv self profile_name s m s' :
  _create_model_for_profile import_module self profile_name s = (Ok (Some m), s') ->
  exists p pm w1 f,
    profiles (config self) !! profile_name = Some p /\
    import_module ("tmuxbot.providers." +:+ provider p) (world s) = (Ok pm, w1) /\
    create_model_attr pm = Some f /\
    f p w1 = (Ok (Some m), world s').
Proof.
  unfold _create_model_for_profile, bind, try_except, ret, raise, logger, spy, extern.
  cbn -[String.append].
  destruct (profiles (config self) !! profile_name) as [p|]; [|discriminate].
  cbn -[String.append].
  destruct (import_module _ _) as [[pm|err] w] eqn:Himp; cbn -[String.append].
  - destruct (create_model_attr pm) as [f|] eqn:Hattr; cbn -[String.append].
    + destruct (f p w) as [[o|err] w'] eqn:Hf; cbn -[String.append].
      * intros [= -> <-]. exists p, pm, w, f. done.
      * destruct (exc_class err); discriminate.
    + discriminate.
  - destruct (exc_class err); discriminate.
Qed.

(** A model returned by [create_model] was made by a provider: the agent
    exists, one of its candidates names an existing profile, the module
    [tmuxbot.providers.<provider of that profile>] was imported, has a
    [create_model], and that function, given this profile, returned the
    model; nothing touched the world after it. *)
Theorem create_model_provenance self agent_type s m s' :
  create_model import_module self agent_type s = (Ok (Some m), s') ->
  exists agent_config profile_name p w pm w1 f,
    dict_get (agents (config self)) agent_type = Some agent_config /\
    profile_name ∈ profile_names agent_config /\
    profiles (config self) !! profile_name = Some p /\
    import_module ("tmuxbot.providers." +:+ provider p) w = (Ok pm, w1) /\
    create_model_attr pm = Some f /\
    f p w1 = (Ok (Some m), world s').
Proof.
  intros Hrun.
  destruct (dict_get (agents (config self)) agent_type) as [agent_config|] eqn:Hag.
  - destruct (first_success_or_all_fail import_module self agent_type
                (profile_names agent_config) s)
      as [(outs & s1 & Hall)|(pre & pn & post & outs & s1 & m' & s2 & Hsplit & Hall & Hok)].
    + rewrite (create_model_all_fail _ _ _ _ _ _ _ Hag Hall) in Hrun. discriminate.
    + rewrite (create_model_first_success _ _ _ _ _ _ _ _ _ _ _ _ Hag Hsplit Hall Hok) in Hrun.
      injection Hrun as -> <-.
      apply attempt_success_inv in Hok as (p & pm & w1 & f & Hp & Himp & Hattr & Hf).
      exists agent_config, pn, p, (world s1), pm, w1, f.
      split; [done|]. split; [|done]. rewrite Hsplit. set_solver.
  - unfold create_model in Hrun. rewrite Hag in Hrun. discriminate.
Qed.

(** *** Candidates that are not profiles *)

Lemma all_dangling_all_fail self agent_type (names : list string) s :
  Forall (fun n => profiles (config self) !! n = None) names ->
  all_fail import_module self agent_type names s ((fun _ => None) <$> names)
    (mkSt (world s)
          (log s ++ ((fun n => mkLog ERROR ("Profile not found: " +:+ n)) <$> names))
          (calls s ++ names)).
Proof.
  intros Hall. revert s. induction Hall as [|n names Hn _ IH]; intros s.
  - cbn. rewrite !app_nil_r. destruct s. constructor.
  - cbn [fmap list_fmap]. eapply all_fail_null.
    + exact (attempt_missing import_module self n s Hn).
    + specialize (IH (mkSt (world s)
                           (log s ++ [mkLog ERROR ("Profile not found: " +:+ n)])
                           (calls s ++ [n]))).
      cbn [world log calls] in IH. rewrite <- !app_assoc in IH. exact IH.
Qed.

Lemma most_recent_error_nulls {A} (l : list A) :
  most_recent_error ((fun _ => None) <$> l) = None.
Proof. unfold most_recent_error. by induction l. Qed.

(** When no candidate of an agent names a profile, [create_model] imports
    nothing and calls no provider: the world is untouched, the result is
    [None], and the records logged are one "Profile not found" error per
    candidate, in order, followed by "No valid profiles found". *)
Theorem create_model_all_dangling self agent_type agent_config s :
  dict_get (agents (config self)) agent_type = Some agent_config ->
  Forall (fun n => profiles (config self) !! n = None) (profile_names agent_config) ->
  create_model import_module self agent_type s =
    (Ok None,
     mkSt (world s)
          (log s
           ++ ((fun n => mkLog ERROR ("Profile not found: " +:+ n))
               <$> profile_names agent_config)
           ++ [mkLog ERROR ("No valid profiles found for agent '" +:+ agent_type +:+ "'")])
          (calls s ++ profile_names agent_config)).
Proof.
  intros Hag Hnone.
  rewrite (create_model_all_fail _ _ _ _ _ _ _ Hag
             (all_dangling_all_fail self agent_type _ s Hnone)).
  rewrite most_recent_error_nulls. unfold logged. cbn [world log calls].
  rewrite <- app_assoc. reflexivity.
Qed.

(** *** A silent construction *)

(** Constructing the factory logs nothing exactly when every fallback
    name of every agent is a profile. *)
Theorem init_silent_iff_no_dangling_fallback (cfg : Config) s :
  log (__init__ cfg s).2 = log s <->
  forall agent_name agent_config fallback_profile,
    (agent_name, agent_config) ∈ agents cfg ->
    fallback_profile ∈ default [] (fallbacks agent_config) ->
    is_Some (profiles cfg !! fallback_profile).
Proof.
  unfold __init__, bind. rewrite validate_spec. cbn [snd log config].
  split.
  - intros Hlog a ac n Hin Hn.
    rewrite <- (app_nil_r (log s)) in Hlog at 2. apply app_inv_head in Hlog.
    apply fmap_nil_inv in Hlog.
    destruct (profiles cfg !! n) as [p|] eqn:Hp; [by eexists|].
    assert ((a, n) ∈ missing_fallbacks cfg) as Hmiss
      by (apply elem_of_missing_fallbacks; eauto).
    rewrite Hlog in Hmiss. by apply elem_of_nil in Hmiss.
  - intros Hall. rewrite <- (app_nil_r (log s)) at 2. f_equal.
    unfold validation_warnings.
    assert (missing_fallbacks cfg = []) as ->; [|done].
    apply elem_of_nil_inv. intros [a n] (ac & Hin & Hn & Hnone)%elem_of_missing_fallbacks.
    destruct (Hall a ac n Hin Hn) as [p Hp]. congruence.
Qed.

(** *** What resolution depends on *)

Lemma attempt_local self1 self2 profile_name s :
  profiles (config self1) !! profile_name = profiles (config self2) !! profile_name ->
  _create_model_for_profile import_module self1 profile_name s =
  _create_model_for_profile import_module self2 profile_name s.
Proof.
  intros Heq. unfold _create_model_for_profile, bind. cbn. by rewrite Heq.
Qed.

Lemma loop_local self1 self2 agent_type agent_config names last_error s :
  (forall n, n ∈ names -> profiles (config self1) !! n = profiles (config self2) !! n) ->
  for_profile_names import_module self1 agent_type agent_config names last_error s =
  for_profile_names import_module self2 agent_type agent_config names last_error s.
Proof.
  revert last_error s. induction names as [|n names IH]; intros last_error s Heq; [done|].
  assert (profiles (config self1) !! n = profiles (config self2) !! n) as Hn
    by (apply Heq; set_solver).
  pose proof (attempt_local self1 self2 n s Hn) as Hat.
  destruct (_create_model_for_profile import_module self1 n s) as [[[m|]|e] s1] eqn:H1;
    symmetry in Hat.
  - by rewrite (loop_success _ _ _ _ _ _ _ _ _ _ H1), (loop_success _ _ _ _ _ _ _ _ _ _ Hat).
  - rewrite (loop_null _ _ _ _ _ _ _ _ _ H1), (loop_null _ _ _ _ _ _ _ _ _ Hat).
    apply IH. intros n' Hn'. apply Heq. set_solver.
  - rewrite (loop_raise _ _ _ _ _ _ _ _ _ _ H1), (loop_raise _ _ _ _ _ _ _ _ _ _ Hat).
    apply IH. intros n' Hn'. apply Heq. set_solver.
Qed.

(** Resolution of an agent reads the configuration only through the
    agent's own entry and the profiles its candidates name: two
    factories that agree on these behave alike, whatever else their
    configurations hold. *)
Theorem create_model_local self1 self2 agent_type agent_config s :
  dict_get (agents (config self1)) agent_type = Some agent_config ->
  dict_get (agents (config self2)) agent_type = Some agent_config ->
  (forall n, n ∈ profile_names agent_config ->
             profiles (config self1) !! n = profiles (config self2) !! n) ->
  create_model import_module self1 agent_type s =
  create_model import_module self2 agent_type s.
Proof.
  intros H1 H2 Heq. unfold create_model. rewrite H1, H2. unfold bind at 1 3.
  by rewrite (loop_local self1 self2 agent_type agent_config _ None s Heq).
Qed.

(** *** The warnings of a failed resolution *)




End FactoryMore.

(** ** Facts about the factory under exceptions that are not caught *)

Section BaseExceptionFacts.

Context {Model World : Type}.
Variable import_module :
  string -> BaseExceptions.Extern World (BaseExceptions.ProviderModule Model World).

Implicit Types (self : ModelFactory) (s : St World) (e : Exc) (m : Model).
Implicit Types (b : BaseExceptions.BaseExc).
Implicit Types (agent_type profile_name : string) (agent_config : AgentConfig).

Import BaseExceptions (Returns, Raises, Escapes).

Lemma escaping_attempt self profile_name s :
  exists r s',
    BaseExceptions._create_model_for_profile import_module self profile_name s = (r, s') /\
    match r with
    | Escapes b =>
        BaseExceptions.escapes_from import_module self [profile_name] b /\
        last_level s' DEBUG
    | _ => True
    end.
Proof.
  unfold BaseExceptions._create_model_for_profile, BaseExceptions.bind,
    BaseExceptions.try_except, BaseExceptions.ret, BaseExceptions.raise,
    BaseExceptions.logger, BaseExceptions.spy, BaseExceptions.extern.
  cbn -[String.append].
  destruct (profiles (config self) !! profile_name) as [p|] eqn:Hp; [|by eexists _, _].
  cbn -[String.append].
  destruct (import_module _ _) as [[pm|err|b] w] eqn:Himp; cbn -[String.append].
  - destruct (BaseExceptions.create_model_attr pm) as [f|] eqn:Hattr; cbn -[String.append].
    + destruct (f p w) as [[o|err|b] w'] eqn:Hf; cbn -[String.append].
      * by eexists _, _.
      * destruct (exc_class err); by eexists _, _.
      * eexists _, _. split; [reflexivity|]. split.
        -- exists profile_name, p, w. split; [apply list_elem_of_here|]. split; [done|]. right.
           exists (world s), pm, f. by rewrite Himp, Hf.
        -- eexists. cbn. rewrite last_snoc. done.
    + by eexists _, _.
  - destruct (exc_class err); by eexists _, _.
  - eexists _, _. split; [reflexivity|]. split.
    + exists profile_name, p, (world s). split; [apply list_elem_of_here|]. split; [done|]. left.
      by rewrite Himp.
    + eexists. cbn. rewrite last_snoc. done.
Qed.


Lemma escapes_from_mono self names names' b :
  names ⊆ names' ->
  BaseExceptions.escapes_from import_module self names b ->
  BaseExceptions.escapes_from import_module self names' b.
Proof.
  intros Hsub (pn & p & w & Hin & Hrest). exists pn, p, w. split; [by apply Hsub|done].
Qed.

Lemma escaping_loop self agent_type agent_config names last_error s :
  exists r s',
    BaseExceptions.for_profile_names import_module self agent_type agent_config names
      last_error s = (r, s') /\
    match r with
    | Returns (inl m) => last_level s' WARNING \/ last_level s' DEBUG
    | Returns (inr _) => True
    | Raises e => False
    | Escapes b =>
        BaseExceptions.escapes_from import_module self names b /\ last_level s' DEBUG
    end.
Proof.
  revert last_error s. induction names as [|pn names IH]; intros last_error s.
  - by eexists _, _.
  - cbn [BaseExceptions.for_profile_names].
    destruct (escaping_attempt self pn s) as (r & s1 & Hat & Hr).
    unfold BaseExceptions.bind at 1, BaseExceptions.try_except at 1,
      BaseExceptions.bind at 1.
    rewrite Hat. destruct r as [[m|]|e|b].
    + unfold BaseExceptions.bind, BaseExceptions.logger, BaseExceptions.ret.
      destruct (decide (pn ≠ profile agent_config)); cbn -[String.append];
        eexists _, _; (split; [reflexivity|]);
        [left|right]; eexists; cbn; rewrite last_snoc; done.
    + unfold BaseExceptions.ret at 1.
      destruct (IH last_error s1) as (r & s2 & Hloop & Hr2).
      exists r, s2. split; [exact Hloop|].
      destruct r as [[?|?]|?|?]; try done.
      destruct Hr2 as [Hesc Hlast]. split; [|done].
      eapply escapes_from_mono; [|exact Hesc].
      intros x Hx. by apply list_elem_of_further.
    + unfold BaseExceptions.bind at 1, BaseExceptions.logger at 1, BaseExceptions.ret at 1.
      cbn -[String.append].
      match goal with
      | |- context [BaseExceptions.for_profile_names _ _ _ _ _ ?le ?t] =>
          destruct (IH le t) as (r & s2 & Hloop & Hr2)
      end.
      exists r, s2. split; [exact Hloop|].
      destruct r as [[?|?]|?|?]; try done.
      destruct Hr2 as [Hesc Hlast]. split; [|done].
      eapply escapes_from_mono; [|exact Hesc].
      intros x Hx. by apply list_elem_of_further.
    + eexists _, _. split; [reflexivity|].
      destruct Hr as [Hesc Hlast]. split; [|done].
      eapply escapes_from_mono; [|exact Hesc].
      intros x Hx. apply list_elem_of_singleton in Hx as ->. apply list_elem_of_here.
Qed.

(** The outcome of [create_model]: it returns after logging a record
    whose level tells the result, or an exception that is not an
    [Exception], raised by an import or a provider, escapes just after
    a debug record.  It never raises an [Exception]. *)
Lemma create_model_outcome self agent_type s :
  exists r s',
    BaseExceptions.create_model import_module self agent_type s = (r, s') /\
    match r with
    | Returns None => last_level s' ERROR
    | Returns (Some _) => last_level s' WARNING \/ last_level s' DEBUG
    | Raises _ => False
    | Escapes b =>
        last_level s' DEBUG /\
        exists agent_config,
          dict_get (agents (config self)) agent_type = Some agent_config /\
          BaseExceptions.escapes_from import_module self (profile_names agent_config) b
    end.
Proof.
  unfold BaseExceptions.create_model.
  destruct (dict_get (agents (config self)) agent_type) as [agent_config|] eqn:Hag.
  - destruct (escaping_loop self agent_type agent_config (profile_names agent_config) None s)
      as (r & s1 & Hloop & Hr).
    unfold BaseExceptions.bind at 1. rewrite Hloop.
    destruct r as [[m|le]|e|b].
    + by eexists _, _.
    + destruct le; eexists _, _; (split; [reflexivity|]);
        eexists; cbn; rewrite last_snoc; done.
    + done.
    + eexists _, _. split; [reflexivity|]. destruct Hr as [Hesc Hlast].
      split; [done|]. by exists agent_config.
  - eexists _, _. split; [reflexivity|]. eexists. cbn. rewrite last_snoc. done.
Qed.



(** [create_model] always logs something, and the level of its last
    record tells the outcome: an error when it returns [None], a
    warning or a debug note when it returns a model, and a debug note
    when an exception that is not an [Exception] escapes (it does so
    from the import or from the provider, right after the factory's
    debug record).  It never raises an [Exception]. *)
Theorem create_model_last_record self agent_type s :
  exists r s' rec,
    BaseExceptions.create_model import_module self agent_type s = (r, s') /\
    last (log s') = Some rec /\
    match r with
    | Returns None => levelname rec = ERROR
    | Returns (Some _) => levelname rec = WARNING \/ levelname rec = DEBUG
    | Raises _ => False
    | Escapes _ => levelname rec = DEBUG
    end.
Proof.
  destruct (create_model_outcome self agent_type s) as (r & s' & Hrun & Hr).
  destruct r as [[m|]|e|b].
  - destruct Hr as [(rec & Hlast & Hlvl)|(rec & Hlast & Hlvl)];
      exists (Returns (Some m)), s', rec; auto.
  - destruct Hr as (rec & Hlast & Hlvl). by exists (Returns None), s', rec.
  - done.
  - destruct Hr as ((rec & Hlast & Hlvl) & _). by exists (Escapes b), s', rec.
Qed.

End BaseExceptionFacts.

(** *** Without such exceptions, the factory above *)

Section Agreement.

Context {Model World : Type}.
Variable import_module : string -> Extern World (ProviderModule Model World).

Implicit Types (self : ModelFactory) (s : St World) (e : Exc) (m : Model).

Lemma attempt_agrees self profile_name s :
  BaseExceptions._create_model_for_profile (lift_import import_module) self profile_name s =
  lift_run (_create_model_for_profile import_module self profile_name s).
Proof.
  unfold BaseExceptions._create_model_for_profile, BaseExceptions.bind,
    BaseExceptions.try_except, BaseExceptions.ret, BaseExceptions.raise,
    BaseExceptions.logger, BaseExceptions.spy, BaseExceptions.extern.
  unfold _create_model_for_profile, bind, try_except, ret, raise, logger, spy, extern.
  unfold lift_import, lift_run.
  cbn -[String.append].
  destruct (profiles (config self) !! profile_name) as [p|]; [|done].
  cbn -[String.append].
  destruct (import_module _ _) as [[pm|err] w]; cbn -[String.append].
  - destruct (create_model_attr pm) as [f|]; cbn -[String.append]; [|done].
    unfold lift_extern, lift_run. destruct (f p w) as [[o|err] w']; cbn -[String.append].
    + done.
    + by destruct (exc_class err).
  - by destruct (exc_class err).
Qed.

Lemma loop_agrees self agent_type agent_config names last_error s :
  BaseExceptions.for_profile_names (lift_import import_module) self agent_type agent_config
    names last_error s =
  lift_run (for_profile_names import_module self agent_type agent_config names last_error s).
Proof.
  revert last_error s. induction names as [|pn names IH]; intros last_error s; [done|].
  cbn [BaseExceptions.for_profile_names for_profile_names].
  unfold BaseExceptions.bind at 1, BaseExceptions.try_except at 1, BaseExceptions.bind at 1.
  unfold bind at 1, try_except at 1, bind at 1.
  rewrite attempt_agrees. unfold lift_run at 1.
  destruct (_create_model_for_profile import_module self pn s) as [[[m|]|e] s1];
    cbn -[String.append BaseExceptions.for_profile_names for_profile_names].
  - by destruct (decide (pn ≠ profile agent_config)).
  - apply IH.
  - apply IH.
Qed.

(** Over an import and providers that raise nothing but [Exception]s,
    the two embeddings of [create_model] give the same result and the
    same state. *)
Lemma create_model_agrees self agent_type s :
  BaseExceptions.create_model (lift_import import_module) self agent_type s =
  lift_run (create_model import_module self agent_type s).
Proof.
  unfold BaseExceptions.create_model, create_model.
  destruct (dict_get (agents (config self)) agent_type) as [agent_config|]; [|done].
  unfold BaseExceptions.bind at 1, bind at 1. rewrite loop_agrees. unfold lift_run at 1.
  destruct (for_profile_names _ _ _ _ _ _ _) as [[[m|[e|]]|e] s1]; done.
Qed.

End Agreement.

Section BaseExceptionsOnScenario.

Import BaseExceptions (Returns, Raises, Escapes).


End BaseExceptionsOnScenario.

(** ** Facts about the configuration directory and the migration *)

Section SystemFacts.

Context {Path FS : Type} `{!PathLib Path FS} `{!StrMethods}.

Abbreviation St' := (St (Sys FS)).

Implicit Types (s : St') (w : Sys FS) (e : Exc) (p legacy xdg : Path).

(** *** Rules for [keeps] and [pure_read] *)

Lemma keeps_ret {A B} (f : Sys FS -> B) (a : A) : keeps f (ret a).
Proof. by intros s r s' [= <- <-]. Qed.

Lemma keeps_raise {A B} (f : Sys FS -> B) e : keeps f (raise (A := A) e).
Proof. by intros s r s' [= <- <-]. Qed.

Lemma keeps_bind {A B C} (f : Sys FS -> C) (m : M (Sys FS) A) (k : A -> M (Sys FS) B) :
  keeps f m -> (forall a, keeps f (k a)) -> keeps f (bind m k).
Proof.
  intros Hm Hk s r s'. unfold bind. destruct (m s) as [[a|e] s1] eqn:Hms.
  - intros Hks. rewrite (Hk a _ _ _ Hks). exact (Hm _ _ _ Hms).
  - intros [= <- <-]. exact (Hm _ _ _ Hms).
Qed.

Lemma keeps_try_except {A C} (f : Sys FS -> C) (m : M (Sys FS) A) h :
  keeps f m -> (forall e, keeps f (h e)) -> keeps f (try_except m h).
Proof.
  intros Hm Hh s r s'. unfold try_except. destruct (m s) as [[a|e] s1] eqn:Hms.
  - intros [= <- <-]. exact (Hm _ _ _ Hms).
  - intros Hhs. rewrite (Hh e _ _ _ Hhs). exact (Hm _ _ _ Hms).
Qed.

Lemma keeps_extern {A C} (f : Sys FS -> C) (g : Extern (Sys FS) A) :
  (forall w, f (g w).2 = f w) -> keeps f (extern g).
Proof.
  intros Hg s r s'. unfold extern. specialize (Hg (world s)).
  destruct (g (world s)) as [r' w']. intros [= <- <-]. exact Hg.
Qed.

Lemma pure_read_ret {A} (a : A) : pure_read (W := Sys FS) (ret a).
Proof. by intros s. Qed.

Lemma pure_read_raise {A} e : pure_read (W := Sys FS) (raise (A := A) e).
Proof. by intros s. Qed.

Lemma pure_read_bind {A B} (m : M (Sys FS) A) (k : A -> M (Sys FS) B) :
  pure_read m -> (forall a, pure_read (k a)) -> pure_read (bind m k).
Proof.
  intros Hm Hk s. unfold bind. specialize (Hm s).
  destruct (m s) as [[a|e] s1]; cbn in Hm; subst s1; [apply Hk|done].
Qed.

Lemma pure_read_extern {A} (g : Extern (Sys FS) A) :
  (forall w, (g w).2 = w) -> pure_read (extern g).
Proof.
  intros Hg s. unfold extern. specialize (Hg (world s)).
  destruct (g (world s)) as [r' w']. cbn in *. subst w'. by destruct s.
Qed.

(** A computation that changes nothing is determined by its result. *)
Lemma pure_read_run {A} (m : M (Sys FS) A) s :
  pure_read m -> m s = ((m s).1, s).
Proof. intros Hm. specialize (Hm s). destruct (m s) as [r s1]. cbn in *. by subst. Qed.

Ltac pure_step :=
  first
    [ apply pure_read_ret
    | apply pure_read_raise
    | apply pure_read_bind; [|intros ?]
    | apply pure_read_extern; intros ?; reflexivity
    | match goal with
      | |- pure_read (match ?x with _ => _ end) => destruct x
      | |- pure_read (let '(_, _) := ?x in _) => destruct x
      end ].

Lemma getenv_pure name : pure_read (getenv (FS := FS) name).
Proof. unfold getenv. pure_step. Qed.

Lemma cwd_pure : pure_read cwd.
Proof. unfold cwd, read_fs. pure_step. Qed.

Lemma home_pure : pure_read home.
Proof. unfold home. pure_step. Qed.

Lemma exists_pure p : pure_read (exists_ p).
Proof. unfold exists_, read_fs. pure_step. Qed.

Lemma get_xdg_config_home_pure : pure_read get_xdg_config_home.
Proof.
  unfold get_xdg_config_home. apply pure_read_bind; [apply getenv_pure|].
  intros [[|c r]|]; repeat first [apply home_pure | pure_step].
Qed.

Lemma get_tmuxbot_config_dir_pure : pure_read get_tmuxbot_config_dir.
Proof.
  unfold get_tmuxbot_config_dir.
  apply pure_read_bind; [apply get_xdg_config_home_pure|]. intros. pure_step.
Qed.

Lemma get_config_file_path_pure : pure_read get_config_file_path.
Proof.
  unfold get_config_file_path.
  apply pure_read_bind; [apply get_tmuxbot_config_dir_pure|]. intros. pure_step.
Qed.

Lemma get_migration_paths_pure : pure_read get_migration_paths.
Proof.
  unfold get_migration_paths. apply pure_read_bind; [apply cwd_pure|]. intros d.
  apply pure_read_bind; [apply get_config_file_path_pure|]. intros. pure_step.
Qed.

Lemma check_migration_needed_pure : pure_read check_migration_needed.
Proof.
  unfold check_migration_needed.
  apply pure_read_bind; [apply get_migration_paths_pure|]. intros [legacy xdg].
  apply pure_read_bind.
  { apply pure_read_bind; [apply exists_pure|]. intros [|]; [|pure_step].
    apply pure_read_bind; [apply exists_pure|]. intros. pure_step. }
  intros needs. apply pure_read_bind; [apply exists_pure|]. intros. pure_step.
Qed.

(** *** Whether a migration is needed *)

Ltac unfold_sys :=
  unfold validate_agent_configs, check_environment_variables, getitem,
    migration_status, _get_migration_recommendation, migrate_config, confirm_migration,
    migrate_failed, migrate_steps, check_migration_needed, get_migration_paths,
    detect_legacy_config, ensure_config_directory, get_config_file_path,
    get_tmuxbot_config_dir, get_xdg_config_home, exists_, home, cwd, write_fs, read_fs,
    log_call, input, print, getenv, bind, try_except, ret, raise, extern in *.

Lemma bind_Ok_inv {A B} (m : M (Sys FS) A) (k : A -> M (Sys FS) B) s (b : B) s' :
  bind m k s = (Ok b, s') ->
  exists a s1, m s = (Ok a, s1) /\ k a s1 = (Ok b, s').
Proof.
  unfold bind. destruct (m s) as [[a|e] s1]; [|discriminate]. intros Hk. by exists a, s1.
Qed.

Lemma bind_run_Ok {A B} (m : M (Sys FS) A) (k : A -> M (Sys FS) B) s a s1 :
  m s = (Ok a, s1) -> bind m k s = k a s1.
Proof. intros Hm. unfold bind. by rewrite Hm. Qed.

Lemma bind_run_Raise {A B} (m : M (Sys FS) A) (k : A -> M (Sys FS) B) s e s1 :
  m s = (Raise e, s1) -> bind m k s = (Raise e, s1).
Proof. intros Hm. unfold bind. by rewrite Hm. Qed.

Lemma pure_read_inv {A} (m : M (Sys FS) A) s r s' :
  pure_read m -> m s = (r, s') -> s' = s.
Proof. intros Hm Hrun. specialize (Hm s). rewrite Hrun in Hm. done. Qed.

Lemma cwd_run s : cwd s = (path_cwd (fs (world s)), s).
Proof. by destruct s. Qed.

Lemma exists_run p s : exists_ p s = (path_exists p (fs (world s)), s).
Proof. by destruct s. Qed.

Lemma getenv_run name s : getenv name s = (Ok (environ (world s) !! name), s).
Proof. by destruct s. Qed.

Lemma home_run s : home s = (path_home (environ (world s)) (fs (world s)), s).
Proof. by destruct s. Qed.

Lemma check_migration_needed_inv s needs lp xdg s' :
  check_migration_needed s = (Ok (needs, lp, xdg), s') ->
  s' = s /\
  exists d le,
    path_cwd (fs (world s)) = Ok d /\
    get_config_file_path s = (Ok xdg, s) /\
    path_exists (joinpath d "config.yaml") (fs (world s)) = Ok le /\
    lp = (if le then Some (joinpath d "config.yaml") else None) /\
    if le then exists xe, path_exists xdg (fs (world s)) = Ok xe /\ needs = negb xe
    else needs = false.
Proof.
  intros Hrun.
  pose proof (pure_read_inv _ _ _ _ check_migration_needed_pure Hrun) as ->.
  split; [done|]. unfold check_migration_needed in Hrun.
  apply bind_Ok_inv in Hrun as ([legacy x] & s1 & Hpaths & Hrun).
  pose proof (pure_read_inv _ _ _ _ get_migration_paths_pure Hpaths) as ->.
  unfold get_migration_paths in Hpaths.
  apply bind_Ok_inv in Hpaths as (d & s1 & Hcwd & Hpaths).
  rewrite cwd_run in Hcwd. injection Hcwd as Hcwd <-.
  apply bind_Ok_inv in Hpaths as (x' & s1 & Hx & Hpaths).
  pose proof (pure_read_inv _ _ _ _ get_config_file_path_pure Hx) as ->.
  injection Hpaths as <- <-.
  apply bind_Ok_inv in Hrun as (needs' & s1 & Hneeds & Hrun).
  apply bind_Ok_inv in Hrun as (le & s2 & Hle & Hrun).
  injection Hrun as <- <- <- <-.
  apply bind_Ok_inv in Hneeds as (le' & s3 & Hle' & Hneeds).
  rewrite exists_run in Hle'. injection Hle' as Hle' <-.
  exists d, le'. split; [done|]. split; [done|]. split; [done|].
  destruct le'.
  - apply bind_Ok_inv in Hneeds as (xe & s3 & Hxe & Hneeds).
    rewrite exists_run in Hxe. injection Hxe as Hxe <-. injection Hneeds as <- <-.
    rewrite exists_run, Hle' in Hle. injection Hle as <-.
    split; [done|]. by exists xe.
  - injection Hneeds as <- <-. rewrite exists_run, Hle' in Hle. by injection Hle as <-.
Qed.

(** When [check_migration_needed] returns, it has changed nothing, and
    its answer says what the file system holds: the legacy path is given
    exactly when the file [config.yaml] of the working directory exists,
    and a migration is needed exactly when it exists and the
    configuration file of the XDG location does not.  So a needed
    migration always comes with its legacy path. *)
Theorem check_migration_needed_decides s needs lp xdg s' :
  check_migration_needed s = (Ok (needs, lp, xdg), s') ->
  s' = s /\
  get_config_file_path s = (Ok xdg, s) /\
  exists d,
    path_cwd (fs (world s)) = Ok d /\
    (lp = Some (joinpath d "config.yaml") /\
     path_exists (joinpath d "config.yaml") (fs (world s)) = Ok true \/
     lp = None /\
     path_exists (joinpath d "config.yaml") (fs (world s)) = Ok false) /\
    (needs = true <->
     path_exists (joinpath d "config.yaml") (fs (world s)) = Ok true /\
     path_exists xdg (fs (world s)) = Ok false) /\
    (needs = true -> is_Some lp).
Proof.
  intros (-> & d & le & Hcwd & Hxdg & Hle & -> & Hneeds)%check_migration_needed_inv.
  split; [done|]. split; [done|]. exists d. split; [done|].
  destruct le.
  - destruct Hneeds as (xe & Hxe & ->). split; [by left|]. split; [|by eexists].
    rewrite Hxe, Hle. destruct xe; cbn.
    + split; [done|]. by intros [_ [=]].
    + done.
  - subst needs. split; [by right|]. split; [|done]. rewrite Hle.
    split; [done|]. by intros [[=] _].
Qed.

(** *** Where the configuration file is *)

(** The configuration file is [<base>/tmuxbot/config.yaml], where
    [<base>] is the value of [XDG_CONFIG_HOME] when that is set and not
    empty (the home directory is then not asked for), and [~/.config]
    otherwise: an empty [XDG_CONFIG_HOME] counts as unset.  Nothing is
    changed. *)
Theorem get_config_file_path_base s :
  get_config_file_path s =
    (match environ (world s) !! "XDG_CONFIG_HOME" with
     | Some (String c r) =>
         Ok (joinpath (joinpath (Path_of (String c r)) "tmuxbot") "config.yaml")
     | _ =>
         match path_home (environ (world s)) (fs (world s)) with
         | Ok h => Ok (joinpath (joinpath (joinpath h ".config") "tmuxbot") "config.yaml")
         | Raise e => Raise e
         end
     end, s).
Proof.
  unfold get_config_file_path, get_tmuxbot_config_dir, get_xdg_config_home.
  unfold bind at 1 2 3. rewrite getenv_run.
  destruct (environ (world s) !! "XDG_CONFIG_HOME") as [[|c r]|]; [|done|].
  - unfold bind. rewrite home_run. by destruct (path_home _ _).
  - unfold bind. rewrite home_run. by destruct (path_home _ _).
Qed.

(** *** The status report *)

(** The dictionary of [migration_status] is consistent: a migration is
    needed exactly when the legacy file exists and the XDG file does
    not, the legacy path is given exactly when the legacy file exists,
    and the recommendation is decided by which of the two files exist.
    Nothing is changed. *)
Theorem migration_status_consistent s st s' :
  migration_status s = (Ok st, s') ->
  s' = s /\
  st_needs_migration st = st_legacy_exists st && negb (st_xdg_exists st) /\
  st_legacy_exists st = bool_decide (is_Some (st_legacy_path st)) /\
  st_recommendation st =
    match st_legacy_path st, st_xdg_exists st with
    | Some legacy, false =>
        "Run migration to move " +:+ legacy +:+ " to " +:+ st_xdg_path st
    | Some legacy, true =>
        "Consider removing legacy config " +:+ legacy +:+ " (XDG config takes priority)"
    | None, true => "Configuration is XDG-compliant - no action needed"
    | None, false => "No configuration found - run save_config_template() to create template"
    end.
Proof.
  unfold migration_status. intros Hrun.
  apply bind_Ok_inv in Hrun as ([[needs lp] xdg] & s1 & Hcheck & Hrun).
  apply check_migration_needed_inv in Hcheck
    as (-> & d & le & Hcwd & Hxdg & Hle & -> & Hneeds).
  apply bind_Ok_inv in Hrun as (xe & s1 & Hxe & Hrun).
  rewrite exists_run in Hxe. injection Hxe as Hxe <-.
  apply bind_Ok_inv in Hrun as (rec & s1 & Hrec & Hrun).
  injection Hrun as <- <-. cbn.
  unfold _get_migration_recommendation in Hrec.
  destruct le.
  - destruct Hneeds as (xe' & Hxe' & ->). rewrite Hxe in Hxe'. injection Hxe' as <-.
    destruct xe.
    + unfold bind in Hrec. cbn -[exists_] in Hrec.
      rewrite exists_run, Hxe in Hrec. by injection Hrec as <- <-.
    + by injection Hrec as <- <-.
  - subst needs. unfold bind, ret in Hrec. cbn -[exists_] in Hrec.
    rewrite exists_run, Hxe in Hrec.
    destruct xe; by injection Hrec as <- <-.
Qed.

(** *** What the migration leaves alone *)

Ltac unfold_fns :=
  unfold validate_agent_configs, check_environment_variables, getitem,
    migration_status, _get_migration_recommendation, migrate_config, confirm_migration,
    migrate_failed, migrate_steps, check_migration_needed, get_migration_paths,
    detect_legacy_config, ensure_config_directory, get_config_file_path,
    get_tmuxbot_config_dir, get_xdg_config_home, exists_, home, cwd, write_fs, read_fs,
    log_call, input, print, getenv.

Ltac keeps_step :=
  first
    [ progress (cbv beta iota)
    | apply keeps_ret
    | apply keeps_raise
    | apply keeps_bind; [|intros ?]
    | apply keeps_try_except; [|intros ?]
    | apply keeps_extern; intros [? ? ? ? ?]; cbn; repeat case_match; reflexivity
    | match goal with
      | |- keeps _ (match ?x with _ => _ end) => destruct x
      | |- keeps _ (let '(_, _) := ?x in _) => destruct x
      end ].

Lemma migrate_config_batch_keeps_tty backup :
  keeps tty (migrate_config false backup).
Proof. unfold_fns. repeat keeps_step. Qed.

(** Without [interactive], [migrate_config] calls neither [print] nor
    [input], whatever happens: what it has to say goes to the logger
    only, and no line of the input is consumed. *)
Theorem migrate_config_batch_is_silent backup s r s' :
  migrate_config false backup s = (r, s') ->
  stdout (world s') = stdout (world s) /\ stdin (world s') = stdin (world s).
Proof.
  intros Hrun. pose proof (migrate_config_batch_keeps_tty backup s r s' Hrun) as Htty.
  unfold tty in Htty. by injection Htty as -> ->.
Qed.

Lemma check_migration_needed_keeps {B} (f : Sys FS -> B) : keeps f check_migration_needed.
Proof.
  intros s r s' Hrun.
  by rewrite (pure_read_inv _ _ _ _ check_migration_needed_pure Hrun).
Qed.

End SystemFacts.

(** ** Facts about the migration itself *)

Section MigrationFacts.

Context {Path FS : Type} `{!PathLib Path FS} `{!StrMethods}.

Implicit Types (s : St (Sys FS)) (w : Sys FS) (e : Exc) (p legacy xdg : Path).

(** *** Running the primitives *)

Lemma bind_ret {A B} (a : A) (k : A -> M (Sys FS) B) s : bind (ret a) k s = k a s.
Proof. reflexivity. Qed.

Lemma bind_bind {A B C} (m : M (Sys FS) A) (k1 : A -> M (Sys FS) B)
    (k2 : B -> M (Sys FS) C) s :
  bind (bind m k1) k2 s = bind m (fun a => bind (k1 a) k2) s.
Proof. unfold bind. by destruct (m s) as [[a|e] s1]. Qed.

Lemma bind_log_call {B} name method msg (k : unit -> M (Sys FS) B) s :
  bind (log_call name method msg) k s = k tt (with_record (mkLogged name method msg) s).
Proof. reflexivity. Qed.

Lemma bind_print {B} line (k : unit -> M (Sys FS) B) s :
  bind (print line) k s = k tt (with_output (line +:+ nl) s).
Proof. reflexivity. Qed.

Lemma bind_exists {B} p (k : bool -> M (Sys FS) B) s b :
  path_exists p (fs (world s)) = Ok b -> bind (exists_ p) k s = k b s.
Proof. intros Hb. unfold bind. by rewrite exists_run, Hb. Qed.


Ltac eval_step :=
  first
    [ rewrite bind_bind
    | rewrite bind_ret
    | rewrite bind_log_call
    | rewrite bind_print
    | progress (cbv beta iota) ].

Ltac proj_state := cbn [with_record with_output world fs stdin stdout records environ log calls].

Tactic Notation "proj_state" "in" hyp(H) :=
  cbn [with_record with_output world fs stdin stdout records environ log calls] in H.

(** *** Nothing to migrate *)

Lemma migrate_config_noop_run interactive backup s lp xdg :
  check_migration_needed s = (Ok (false, lp, xdg), s) ->
  exists s',
    migrate_config interactive backup s = (Ok true, s') /\
    fs (world s') = fs (world s) /\
    stdin (world s') = stdin (world s) /\
    (interactive = false -> stdout (world s') = stdout (world s)).
Proof.
  intros Hcheck.
  pose proof Hcheck as (_ & d & le & Hcwd & Hxdg & Hle & -> & Hneeds)%check_migration_needed_inv.
  unfold migrate_config. rewrite (bind_run_Ok _ _ _ _ _ Hcheck). cbv beta iota.
  cbn [negb].
  destruct le.
  - destruct Hneeds as ([|] & Hxe & [=]).
    rewrite bind_bind, (bind_exists _ _ _ true Hxe).
    destruct interactive; repeat eval_step;
      (eexists; split; [reflexivity|]); proj_state; done.
  - destruct interactive; repeat eval_step;
      (eexists; split; [reflexivity|]); proj_state; done.
Qed.


(** When no migration is needed (there is no legacy file, or the XDG
    file is already there), [migrate_config] returns [True] and leaves
    the file system and the input alone; without [interactive] it
    prints nothing. *)
Theorem migrate_config_nothing_to_do interactive backup s lp xdg :
  check_migration_needed s = (Ok (false, lp, xdg), s) ->
  exists s',
    migrate_config interactive backup s = (Ok true, s') /\
    fs (world s') = fs (world s) /\
    stdin (world s') = stdin (world s) /\
    (interactive = false -> stdout (world s') = stdout (world s)).
Proof. exact (migrate_config_noop_run interactive backup s lp xdg). Qed.

(** *** Declining *)

Lemma bind_input {B} prompt (k : string -> M (Sys FS) B) s answer rest :
  stdin (world s) = answer :: rest ->
  bind (input prompt) k s =
    k answer
      (mkSt (mkSys (environ (world s)) (fs (world s)) (stdout (world s) ++ [prompt]) rest
               (records (world s)))
            (log s) (calls s)).
Proof. intros Hin. unfold bind, input, extern. cbn. by rewrite Hin. Qed.

Lemma bind_input_eof {B} prompt (k : string -> M (Sys FS) B) s :
  stdin (world s) = [] ->
  bind (input prompt) k s =
    (Raise (mkExc (OtherException "EOFError") "EOF when reading a line" None),
     mkSt (mkSys (environ (world s)) (fs (world s)) (stdout (world s) ++ [prompt]) []
             (records (world s)))
          (log s) (calls s)).
Proof. intros Hin. unfold bind, input, extern. cbn. by rewrite Hin. Qed.

Lemma migrate_config_needed_run interactive backup s lp xdg :
  check_migration_needed s = (Ok (true, lp, xdg), s) ->
  migrate_config interactive backup s =
    bind (if interactive then confirm_migration backup lp xdg else ret true)
      (fun proceed =>
         if proceed
         then try_except (migrate_steps interactive backup lp xdg)
                         (migrate_failed interactive)
         else ret false)
      (with_record
         (mkLogged migration_logger info
            ("Migration needed: " +:+ str_opt lp +:+ " -> " +:+ path_str xdg)) s).
Proof.
  intros Hcheck. unfold migrate_config. rewrite (bind_run_Ok _ _ _ _ _ Hcheck).
  cbv beta iota. cbn [negb]. rewrite bind_ret. cbv beta iota. by rewrite bind_log_call.
Qed.

Lemma confirm_migration_run backup lp xdg s answer rest :
  stdin (world s) = answer :: rest ->
  exists out,
    confirm_migration backup lp xdg s =
      (Ok (bool_decide (str_strip (str_lower answer) ∈ ["y"; "yes"])),
       mkSt (mkSys (environ (world s)) (fs (world s)) (stdout (world s) ++ out) rest
               (records (world s) ++
                if bool_decide (str_strip (str_lower answer) ∈ ["y"; "yes"]) then []
                else [mkLogged migration_logger info "Migration cancelled by user"]))
            (log s) (calls s)).
Proof.
  destruct s as [[env fs0 out0 inp recs] l c]. cbn [world stdin]. intros ->.
  unfold confirm_migration.
  destruct backup; eexists; repeat eval_step;
    (erewrite bind_input by (proj_state; reflexivity)); proj_state;
    (destruct (bool_decide (str_strip (str_lower answer) ∈ ["y"; "yes"]));
     [|rewrite bind_log_call]); unfold ret; proj_state;
    rewrite ?(app_nil_r recs), <- ?app_assoc; reflexivity.
Qed.

(** In the interactive mode, an answer that is neither [y] nor [yes]
    once lowered and stripped cancels a needed migration:
    [migrate_config] returns [False], the file system is untouched, one
    line of input is consumed and the last record says that the user
    cancelled. *)
Theorem migrate_config_declined backup s lp xdg answer rest :
  check_migration_needed s = (Ok (true, lp, xdg), s) ->
  stdin (world s) = answer :: rest ->
  str_strip (str_lower answer) ∉ ["y"; "yes"] ->
  exists s',
    migrate_config true backup s = (Ok false, s') /\
    fs (world s') = fs (world s) /\
    stdin (world s') = rest /\
    last (records (world s')) =
      Some (mkLogged migration_logger info "Migration cancelled by user").
Proof.
  intros Hcheck Hin Hno. rewrite (migrate_config_needed_run _ _ _ _ _ Hcheck).
  edestruct (confirm_migration_run backup lp xdg) as [out Hconfirm];
    [|rewrite (bind_run_Ok _ _ _ _ _ Hconfirm)].
  { proj_state. exact Hin. }
  rewrite bool_decide_eq_false_2 by done.
  eexists. split; [reflexivity|]. proj_state.
  split; [reflexivity|]. split; [reflexivity|]. apply last_snoc.
Qed.


(** *** It returns *)

Lemma migrate_failed_run interactive e s :
  exists s', migrate_failed interactive e s = (Ok false, s') /\
    fs (world s') = fs (world s) /\
    last (records (world s')) =
      Some (mkLogged migration_logger error
              ((if is_PermissionError e
                then "Permission denied during migration: "
                else "Migration failed: ") +:+ exc_str e)).
Proof.
  unfold migrate_failed.
  destruct interactive; repeat eval_step;
    (eexists; split; [reflexivity|]); proj_state; by rewrite last_snoc.
Qed.



(** Reading an answer at the end of the input is the one thing that
    escapes: in the interactive mode, with a needed migration and no
    line to read, [migrate_config] raises [EOFError], and the file
    system is untouched. *)
Theorem migrate_config_eof backup s lp xdg :
  check_migration_needed s = (Ok (true, lp, xdg), s) ->
  stdin (world s) = [] ->
  exists e s',
    migrate_config true backup s = (Raise e, s') /\
    exc_class e = OtherException "EOFError" /\
    fs (world s') = fs (world s).
Proof.
  intros Hcheck Hin. rewrite (migrate_config_needed_run _ _ _ _ _ Hcheck).
  cbv beta iota. unfold confirm_migration.
  destruct backup; repeat eval_step;
    (erewrite bind_input_eof by (proj_state; exact Hin));
    eexists _, _; (split; [reflexivity|]); proj_state; split; reflexivity.
Qed.


(** *** Creating the configuration directory *)

Lemma get_tmuxbot_config_dir_base s :
  get_tmuxbot_config_dir s =
    (match environ (world s) !! "XDG_CONFIG_HOME" with
     | Some (String c r) => Ok (joinpath (Path_of (String c r)) "tmuxbot")
     | _ =>
         match path_home (environ (world s)) (fs (world s)) with
         | Ok h => Ok (joinpath (joinpath h ".config") "tmuxbot")
         | Raise e => Raise e
         end
     end, s).
Proof.
  unfold get_tmuxbot_config_dir, get_xdg_config_home.
  unfold bind at 1 2. rewrite getenv_run.
  destruct (environ (world s) !! "XDG_CONFIG_HOME") as [[|c r]|]; [|done|].
  - unfold bind. rewrite home_run. by destruct (path_home _ _).
  - unfold bind. rewrite home_run. by destruct (path_home _ _).
Qed.

Lemma get_tmuxbot_config_dir_frame s1 s2 :
  environ (world s1) = environ (world s2) ->
  fs (world s1) = fs (world s2) ->
  (get_tmuxbot_config_dir s1).1 = (get_tmuxbot_config_dir s2).1.
Proof. intros He Hf. rewrite !get_tmuxbot_config_dir_base. cbn. by rewrite He, Hf. Qed.

Lemma ensure_config_directory_run s dir :
  (get_tmuxbot_config_dir s).1 = Ok dir ->
  ensure_config_directory s =
    match mkdir dir (fs (world s)) with
    | (Ok _, fs1) =>
        (Ok dir,
         mkSt (mkSys (environ (world s)) fs1 (stdout (world s)) (stdin (world s))
                 (records (world s) ++
                  [mkLogged settings_logger debug
                     ("Configuration directory ensured: " +:+ path_str dir)]))
              (log s) (calls s))
    | (Raise e, fs1) =>
        (path_cwd fs1,
         mkSt (mkSys (environ (world s)) fs1 (stdout (world s)) (stdin (world s))
                 (records (world s) ++
                  [mkLogged settings_logger warning
                     (if is_PermissionError e
                      then "Permission denied creating config directory: " +:+ path_str dir
                      else "Failed to create config directory " +:+ path_str dir +:+ ": "
                           +:+ exc_str e)]))
              (log s) (calls s))
    end.
Proof.
  intros Hdir. unfold ensure_config_directory.
  rewrite (bind_run_Ok _ _ s dir s); cycle 1.
  { rewrite (pure_read_run _ s get_tmuxbot_config_dir_pure). by rewrite Hdir. }
  unfold try_except. unfold bind at 1. unfold write_fs at 1, extern at 1.
  destruct (mkdir dir (fs (world s))) as [[[]|e] fs1].
  - rewrite bind_log_call. reflexivity.
  - destruct (is_PermissionError e); rewrite bind_log_call, cwd_run; reflexivity.
Qed.

(** [ensure_config_directory] lets no failure of [mkdir] out.  When
    [mkdir] raises, whatever the exception, it logs one warning and
    returns the working directory in place of the configuration
    directory; it raises only if the working directory cannot be
    read. *)
Theorem ensure_config_directory_falls_back s dir e fs1 :
  (get_tmuxbot_config_dir s).1 = Ok dir ->
  mkdir dir (fs (world s)) = (Raise e, fs1) ->
  exists s',
    ensure_config_directory s = (path_cwd fs1, s') /\
    fs (world s') = fs1 /\
    exists msg,
      records (world s') = records (world s) ++ [mkLogged settings_logger warning msg].
Proof.
  intros Hdir Hmk. rewrite (ensure_config_directory_run s dir Hdir), Hmk.
  eexists. split; [reflexivity|]. proj_state. split; [reflexivity|]. by eexists.
Qed.


(** *** A migration that goes through *)

Ltac unfold_prims := unfold exists_, home, cwd, write_fs, read_fs, log_call, input, print, getenv.

Ltac keeps_step :=
  first
    [ progress (cbv beta iota)
    | apply keeps_ret
    | apply keeps_raise
    | apply keeps_bind; [|intros ?]
    | apply keeps_try_except; [|intros ?]
    | apply keeps_extern; intros [? ? ? ? ?]; cbn; repeat case_match; reflexivity
    | match goal with
      | |- keeps _ (match ?x with _ => _ end) => destruct x
      | |- keeps _ (let '(_, _) := ?x in _) => destruct x
      end ].

(** [migrate_config] returns [True] for a needed migration only after
    [copy2] from the legacy path to the XDG path succeeded and the XDG
    file was then seen to exist; without [backup] the file system is
    left as that copy left it. *)
Theorem migrate_config_success_is_checked interactive backup s lp xdg s' :
  check_migration_needed s = (Ok (true, lp, xdg), s) ->
  migrate_config interactive backup s = (Ok true, s') ->
  exists fs0 fs1,
    copy2 lp xdg fs0 = (Ok tt, fs1) /\
    path_exists xdg fs1 = Ok true /\
    (backup = false -> fs (world s') = fs1).
Proof.
  intros Hcheck Hrun. rewrite (migrate_config_needed_run _ _ _ _ _ Hcheck) in Hrun.
  apply bind_Ok_inv in Hrun as (proceed & s2 & _ & Hrun).
  destruct proceed; [|discriminate].
  unfold try_except in Hrun.
  destruct (migrate_steps interactive backup lp xdg s2) as [[v|e] s3] eqn:Hsteps.
  2:{ destruct (migrate_failed_run interactive e s3) as (s4 & Hf & _).
      rewrite Hf in Hrun. discriminate. }
  injection Hrun as -> ->. unfold migrate_steps in Hsteps.
  apply bind_Ok_inv in Hsteps as (dir & s3 & _ & Hsteps).
  rewrite bind_log_call in Hsteps.
  apply bind_Ok_inv in Hsteps as ([] & s5 & Hcopy & Hsteps).
  rewrite bind_log_call in Hsteps.
  apply bind_Ok_inv in Hsteps as (created & s7 & Hex & Hsteps).
  rewrite exists_run in Hex. injection Hex as Hex <-.
  destruct created; [|discriminate]. rewrite bind_ret in Hsteps.
  proj_state in Hex.
  exists (fs (world s3)), (fs (world s5)). split; [|split; [done|]].
  - unfold write_fs, extern in Hcopy. proj_state in Hcopy.
    destruct (copy2 lp xdg (fs (world s3))) as [r fs1]. by injection Hcopy as -> <-.
  - intros ->. rewrite bind_ret in Hsteps.
    match type of Hsteps with
    | ?m ?st = _ =>
        assert (keeps fs m) as Hkeeps
          by (unfold_prims; destruct interactive; repeat keeps_step)
    end.
    apply Hkeeps in Hsteps. exact Hsteps.
Qed.

(** A failure of [mkdir] is not what [migrate_config] reports.
    [ensure_config_directory] swallows it and returns the working
    directory, which [migrate_config] then logs as the directory
    "ensured"; the migration fails only at the copy that follows, and
    the error record and the [False] are for the exception of
    [copy2]. *)
Theorem migrate_config_mkdir_failure_reported_by_copy backup s lp xdg dir e fs1 d e' fs2 :
  check_migration_needed s = (Ok (true, lp, xdg), s) ->
  (get_tmuxbot_config_dir s).1 = Ok dir ->
  mkdir dir (fs (world s)) = (Raise e, fs1) ->
  path_cwd fs1 = Ok d ->
  copy2 lp xdg fs1 = (Raise e', fs2) ->
  exists s' msg,
    migrate_config false backup s = (Ok false, s') /\
    fs (world s') = fs2 /\
    records (world s') = records (world s) ++
      [mkLogged migration_logger info
         ("Migration needed: " +:+ str_opt lp +:+ " -> " +:+ path_str xdg);
       mkLogged settings_logger warning msg;
       mkLogged migration_logger info ("Configuration directory ensured: " +:+ path_str d);
       mkLogged migration_logger error
         ((if is_PermissionError e'
           then "Permission denied during migration: "
           else "Migration failed: ") +:+ exc_str e')].
Proof.
  intros Hcheck Hdir Hmk Hcwd Hcopy.
  rewrite (migrate_config_needed_run _ _ _ _ _ Hcheck).
  rewrite bind_ret. cbv beta iota. unfold try_except, migrate_steps.
  erewrite (bind_run_Ok ensure_config_directory); cycle 1.
  { erewrite ensure_config_directory_run; cycle 1.
    { rewrite <- Hdir. by apply get_tmuxbot_config_dir_frame. }
    proj_state. rewrite Hmk, Hcwd. reflexivity. }
  rewrite bind_log_call.
  erewrite (bind_run_Raise (write_fs _)); cycle 1.
  { unfold write_fs, extern. proj_state. rewrite Hcopy. reflexivity. }
  unfold migrate_failed. repeat eval_step. unfold ret.
  eexists _, _. split; [reflexivity|]. proj_state. split; [reflexivity|].
  rewrite <- !app_assoc. reflexivity.
Qed.


(** *** A migration that fails *)

Lemma migrate_steps_Ok interactive backup lp xdg s v s' :
  migrate_steps interactive backup lp xdg s = (Ok v, s') -> v = true.
Proof.
  unfold migrate_steps. intros Hsteps.
  repeat (apply bind_Ok_inv in Hsteps as (? & ? & _ & Hsteps)).
  by injection Hsteps as <- _.
Qed.

Lemma confirm_migration_false backup lp xdg s s' :
  confirm_migration backup lp xdg s = (Ok false, s') ->
  last (records (world s')) =
    Some (mkLogged migration_logger info "Migration cancelled by user").
Proof.
  destruct (stdin (world s)) as [|answer rest] eqn:Hin.
  - unfold confirm_migration.
    destruct backup; repeat eval_step;
      (erewrite bind_input_eof by (proj_state; exact Hin)); discriminate.
  - destruct (confirm_migration_run backup lp xdg s answer rest Hin) as [out ->].
    destruct (bool_decide _); [discriminate|].
    intros [= <-]. proj_state. apply last_snoc.
Qed.

(** A [False] from [migrate_config] for a needed migration is always
    accounted for in the log: either the user declined (interactive
    mode only) and the last record says so, or the steps of the
    migration raised an exception and the last record is the error for
    it, "Permission denied during migration" for a [PermissionError]
    and "Migration failed" otherwise. *)
Theorem migrate_config_false_is_logged interactive backup s lp xdg s' :
  check_migration_needed s = (Ok (true, lp, xdg), s) ->
  migrate_config interactive backup s = (Ok false, s') ->
  (interactive = true /\
   last (records (world s')) =
     Some (mkLogged migration_logger info "Migration cancelled by user")) \/
  (exists e s1 s2,
     migrate_steps interactive backup lp xdg s1 = (Raise e, s2) /\
     fs (world s') = fs (world s2) /\
     last (records (world s')) =
       Some (mkLogged migration_logger error
               ((if is_PermissionError e
                 then "Permission denied during migration: "
                 else "Migration failed: ") +:+ exc_str e))).
Proof.
  intros Hcheck Hrun. rewrite (migrate_config_needed_run _ _ _ _ _ Hcheck) in Hrun.
  apply bind_Ok_inv in Hrun as (proceed & s2 & Hproceed & Hrun).
  destruct proceed.
  - right. unfold try_except in Hrun.
    destruct (migrate_steps interactive backup lp xdg s2) as [[v|e] s3] eqn:Hsteps.
    + apply migrate_steps_Ok in Hsteps as ->. discriminate.
    + destruct (migrate_failed_run interactive e s3) as (s4 & Hf & Hfs & Hlast).
      rewrite Hf in Hrun. injection Hrun as <-. by exists e, s2, s3.
  - left. injection Hrun as <-. destruct interactive; [|discriminate].
    split; [done|]. exact (confirm_migration_false _ _ _ _ _ Hproceed).
Qed.


(** *** The checks of the setup script *)

Lemma print_run line s :
  print line s =
    (Ok tt,
     mkSt (mkSys (environ (world s)) (fs (world s)) (stdout (world s) ++ [line +:+ nl])
             (stdin (world s)) (records (world s)))
          (log s) (calls s)).
Proof. reflexivity. Qed.

(** One turn of the loop of [check_environment_variables]: one line is
    printed, and the variable is entered as found exactly when it is
    set. *)
Lemma check_vars_cons var_name description rest found_vars s :
  exists line,
    check_vars ((var_name, description) :: rest) found_vars s =
    check_vars rest
      (<[var_name := bool_decide (is_Some (environ (world s) !! var_name))]> found_vars)
      (mkSt (mkSys (environ (world s)) (fs (world s)) (stdout (world s) ++ [line])
               (stdin (world s)) (records (world s)))
            (log s) (calls s)).
Proof.
  cbn [check_vars]. unfold bind at 1. rewrite getenv_run.
  destruct (environ (world s) !! var_name) as [[|c r]|];
    unfold bind at 1; rewrite print_run; eexists; reflexivity.
Qed.

(** With a standard output that takes its lines,
    [check_environment_variables] returns [True] exactly when
    [OPENAI_API_KEY] or [OPENROUTER_API_KEY] is set in the environment,
    be it to the empty string (which it reports as "Not set");
    [ANTHROPIC_API_KEY] does not count.  The two lookups in
    [found_vars] find their keys: no [KeyError] is raised.  It prints
    five lines and changes nothing else. *)
Theorem check_environment_variables_result s :
  exists s' lines,
    check_environment_variables s =
      (Ok (bool_decide (is_Some (environ (world s) !! "OPENAI_API_KEY") \/
                        is_Some (environ (world s) !! "OPENROUTER_API_KEY"))), s') /\
    environ (world s') = environ (world s) /\
    fs (world s') = fs (world s) /\
    stdin (world s') = stdin (world s) /\
    stdout (world s') = stdout (world s) ++ lines /\
    length lines = 5.
Proof.
  unfold check_environment_variables, required_vars, dict_items.
  rewrite bind_print.
  edestruct (check_vars_cons "OPENAI_API_KEY") as [l1 H1].
  edestruct (check_vars_cons "OPENROUTER_API_KEY") as [l2 H2].
  edestruct (check_vars_cons "ANTHROPIC_API_KEY") as [l3 H3].
  erewrite (bind_run_Ok (check_vars _ _)); cycle 1.
  { rewrite H1, H2, H3. reflexivity. }
  proj_state. unfold getitem.
  rewrite lookup_insert_ne, lookup_insert_ne, lookup_insert_eq by done.
  rewrite bind_ret.
  destruct (environ (world s) !! "OPENAI_API_KEY") as [v1|] eqn:Ho.
  - rewrite (bool_decide_eq_true_2 (is_Some (Some v1))) by eauto.
    rewrite (bool_decide_eq_true_2 (_ \/ _)) by eauto.
    rewrite bind_ret. cbv beta iota. rewrite bind_print. unfold ret.
    eexists _, _. split; [reflexivity|]. proj_state.
    rewrite <- !app_assoc. repeat split; reflexivity.
  - rewrite (bool_decide_eq_false_2 (is_Some None)) by (by intros [? ?]).
    cbv beta iota.
    rewrite lookup_insert_ne, lookup_insert_eq by done.
    rewrite bind_ret.
    destruct (environ (world s) !! "OPENROUTER_API_KEY") as [v2|] eqn:Hr.
    + rewrite (bool_decide_eq_true_2 (is_Some (Some v2))) by eauto.
      rewrite (bool_decide_eq_true_2 (_ \/ _)) by eauto.
      cbv beta iota. rewrite bind_print. unfold ret.
      eexists _, _. split; [reflexivity|]. proj_state.
      rewrite <- !app_assoc. repeat split; reflexivity.
    + rewrite (bool_decide_eq_false_2 (is_Some None)) by (by intros [? ?]).
      rewrite (bool_decide_eq_false_2 (_ \/ _)) by (by intros [[? ?]|[? ?]]).
      cbv beta iota. rewrite bind_print. unfold ret.
      eexists _, _. split; [reflexivity|]. proj_state.
      rewrite <- !app_assoc. repeat split; reflexivity.
Qed.

Lemma validate_agents_run (config : Config) entries s :
  exists (b : bool) s',
    validate_agents config entries s = (Ok b, s') /\
    (b = true <->
     forall agent_name agent_config,
       (agent_name, agent_config) ∈ entries ->
       is_Some (profiles config !! profile agent_config)).
Proof.
  revert s. induction entries as [|[a ac] entries IH]; intros s.
  - exists true, s. split; [done|]. split; [|done]. intros _ ? ? []%elem_of_nil.
  - cbn [validate_agents].
    unfold bind at 1. rewrite print_run. unfold bind at 1. rewrite print_run.
    unfold bind at 1.
    set (s1 := mkSt _ _ _).
    assert (exists s2,
              match instructions ac with
              | Some (String c r) =>
                  print ("      Instructions: " +:+ str_slice_to 50 (String c r) +:+ "...")
              | _ => ret tt
              end s1 = (Ok tt, s2)) as [s2 ->].
    { destruct (instructions ac) as [[|c r]|]; by eexists. }
    unfold bind at 1.
    assert (exists s3,
              (if truthy (fallbacks ac)
               then print ("      Fallbacks: "
                           +:+ String.concat ", " (items (fallbacks ac)))
               else ret tt) s2 = (Ok tt, s3)) as [s3 ->].
    { destruct (truthy (fallbacks ac)); by eexists. }
    destruct (profiles config !! profile ac) as [p|] eqn:Hp.
    + destruct (IH s3) as (b & s' & -> & Hb). exists b, s'. split; [done|].
      rewrite Hb. split.
      * intros Hall a' ac' [[= -> ->]|Hin]%elem_of_cons; [by eexists|by eapply Hall].
      * intros Hall a' ac' Hin. apply (Hall a'). by apply elem_of_cons; right.
    + unfold bind. rewrite print_run. eexists false, _. split; [done|].
      split; [done|]. intros Hall.
      destruct (Hall a ac) as [p Hp']; [by apply elem_of_cons; left|]. congruence.
Qed.

Lemma validate_agent_configs_spec (load_config : Extern (Sys FS) (option Config)) s :
  exists (b : bool) s',
    validate_agent_configs load_config s = (Ok b, s') /\
    forall cfg w1,
      load_config (mkSys (environ (world s)) (fs (world s))
                     (stdout (world s) ++ ["🔍 Validating agent configurations..." +:+ nl])
                     (stdin (world s)) (records (world s)))
      = (Ok (Some cfg), w1) ->
      (b = true <->
       agents cfg <> [] /\
       forall agent_name agent_config,
         (agent_name, agent_config) ∈ agents cfg ->
         is_Some (profiles cfg !! profile agent_config)).
Proof.
  unfold validate_agent_configs. unfold bind at 1. rewrite print_run.
  unfold try_except, bind at 1, extern. cbn [world log calls].
  destruct (load_config _) as [[[cfg|]|e] w1].
  - destruct (agents cfg) as [|entry entries] eqn:Hagents.
    + unfold bind. rewrite print_run. eexists false, _. split; [done|].
      intros cfg' w' [= <- <-]. rewrite Hagents. split; [done|]. by intros [[] _].
    + unfold bind at 1. rewrite print_run. unfold dict_items.
      destruct (validate_agents_run cfg (agents cfg)
                  (mkSt (mkSys (environ w1) (fs w1)
                           (stdout w1 ++ [("✅ Found " +:+ pretty (length (agents cfg))
                                          +:+ " agents:") +:+ nl])
                           (stdin w1) (records w1)) (log s) (calls s)))
        as (b & s' & Hrun & Hb).
      rewrite Hagents in Hrun, Hb. cbn [world log calls environ fs stdout stdin records].
      rewrite Hrun. exists b, s'. split; [done|].
      intros cfg' w' [= <- <-]. rewrite Hagents, Hb. split; [|by intros [_ ?]].
      intros ?. split; [done|done].
  - unfold bind. rewrite print_run. eexists false, _. split; [done|]. intros ? ? [=].
  - unfold bind. rewrite print_run. eexists false, _. split; [done|]. intros ? ? [=].
Qed.


(** *** Reads that depend on the environment and the files only *)

Lemma reads_only_run {A} (m : M (Sys FS) A) s r s' t :
  reads_only m -> m s = (r, s') ->
  environ (world t) = environ (world s) -> fs (world t) = fs (world s) ->
  s' = s /\ m t = (r, t).
Proof.
  intros Hm Hrun Henv Hfs. destruct (Hm s) as [r0 Hr0].
  pose proof (Hr0 s eq_refl eq_refl) as Hs. rewrite Hrun in Hs. injection Hs as -> ->.
  split; [done|]. by apply Hr0.
Qed.

Lemma reads_only_ret {A} (a : A) : reads_only (FS := FS) (ret a).
Proof. intros s. by exists (Ok a). Qed.

Lemma reads_only_raise {A} e : reads_only (FS := FS) (raise (A := A) e).
Proof. intros s. by exists (Raise e). Qed.

Lemma reads_only_bind {A B} (m : M (Sys FS) A) (k : A -> M (Sys FS) B) :
  reads_only m -> (forall a, reads_only (k a)) -> reads_only (bind m k).
Proof.
  intros Hm Hk s. destruct (Hm s) as [[a|e] Hr].
  - destruct (Hk a s) as [r' Hr']. exists r'. intros t Henv Hfs.
    unfold bind. rewrite (Hr t Henv Hfs). by apply Hr'.
  - exists (Raise e). intros t Henv Hfs. unfold bind. by rewrite (Hr t Henv Hfs).
Qed.

Lemma reads_only_getenv name : reads_only (getenv (FS := FS) name).
Proof.
  intros s. exists (Ok (environ (world s) !! name)). intros t Henv _.
  by rewrite getenv_run, Henv.
Qed.

Lemma reads_only_cwd : reads_only cwd.
Proof.
  intros s. exists (path_cwd (fs (world s))). intros t _ Hfs. by rewrite cwd_run, Hfs.
Qed.

Lemma reads_only_home : reads_only home.
Proof.
  intros s. exists (path_home (environ (world s)) (fs (world s))). intros t Henv Hfs.
  by rewrite home_run, Henv, Hfs.
Qed.

Lemma reads_only_exists p : reads_only (exists_ p).
Proof.
  intros s. exists (path_exists p (fs (world s))). intros t _ Hfs.
  by rewrite exists_run, Hfs.
Qed.

Ltac reads_step :=
  first
    [ apply reads_only_ret
    | apply reads_only_raise
    | apply reads_only_getenv
    | apply reads_only_cwd
    | apply reads_only_home
    | apply reads_only_exists
    | apply reads_only_bind; [|intros ?]
    | match goal with
      | |- reads_only (match ?x with _ => _ end) => destruct x
      | |- reads_only (let '(_, _) := ?x in _) => destruct x
      end ].

Lemma reads_only_get_tmuxbot_config_dir : reads_only get_tmuxbot_config_dir.
Proof. unfold get_tmuxbot_config_dir, get_xdg_config_home. repeat reads_step. Qed.

Lemma reads_only_get_config_file_path : reads_only get_config_file_path.
Proof.
  unfold get_config_file_path. apply reads_only_bind; [|intros ?; apply reads_only_ret].
  apply reads_only_get_tmuxbot_config_dir.
Qed.

Lemma reads_only_check_migration_needed : reads_only check_migration_needed.
Proof.
  unfold check_migration_needed, get_migration_paths.
  apply reads_only_bind.
  - apply reads_only_bind; [apply reads_only_cwd|intros ?].
    apply reads_only_bind; [apply reads_only_get_config_file_path|intros ?].
    apply reads_only_ret.
  - intros [? ?]. repeat reads_step.
Qed.

Lemma reads_only_migration_status : reads_only migration_status.
Proof.
  unfold migration_status, _get_migration_recommendation.
  apply reads_only_bind; [apply reads_only_check_migration_needed|].
  intros [[? ?] ?]. repeat reads_step.
Qed.

Lemma try_except_run_Ok {A} (m : M (Sys FS) A) h s a s1 :
  m s = (Ok a, s1) -> try_except m h s = (Ok a, s1).
Proof. intros Hm. unfold try_except. by rewrite Hm. Qed.

Lemma try_except_run_Raise {A} (m : M (Sys FS) A) h s e s1 :
  m s = (Raise e, s1) -> try_except m h s = h e s1.
Proof. intros Hm. unfold try_except. by rewrite Hm. Qed.


(** *** The object of the setup script *)

(** The two paths a [ConfigSetup] holds agree: the configuration file
    is [config.yaml] in the configuration directory, and it is the
    path [get_config_file_path] gives.  Making the object changes
    nothing. *)
Theorem ConfigSetup_paths_agree root s self s' :
  ConfigSetup__init__ root s = (Ok self, s') ->
  s' = s /\
  project_root self = root /\
  xdg_config_file self = joinpath (xdg_config_dir self) "config.yaml" /\
  get_config_file_path s = (Ok (xdg_config_file self), s).
Proof.
  unfold ConfigSetup__init__. intros Hrun.
  apply bind_Ok_inv in Hrun as (dir & s1 & Hdir & Hrun).
  pose proof (pure_read_inv _ _ _ _ get_tmuxbot_config_dir_pure Hdir) as ->.
  apply bind_Ok_inv in Hrun as (file & s1 & Hfile & Hrun).
  pose proof (pure_read_inv _ _ _ _ get_config_file_path_pure Hfile) as ->.
  injection Hrun as <- <-. cbn. split; [done|]. split; [done|]. split; [|done].
  unfold get_config_file_path in Hfile. rewrite (bind_run_Ok _ _ _ _ _ Hdir) in Hfile.
  by injection Hfile as <-.
Qed.

(** *** The migration check of the setup script *)




(** *** The directory check of the setup script *)

Lemma ensure_then_report_run (h : Exc -> M (Sys FS) bool) t dir e fs1 d :
  (get_tmuxbot_config_dir t).1 = Ok dir ->
  mkdir dir (fs (world t)) = (Raise e, fs1) ->
  path_cwd fs1 = Ok d ->
  exists s',
    try_except
      (bind ensure_config_directory
         (fun _ => bind (print "✅ XDG directory permissions are valid")
                     (fun _ => ret true)))
      h t = (Ok true, s') /\
    fs (world s') = fs1 /\
    last (stdout (world s')) = Some ("✅ XDG directory permissions are valid" +:+ nl).
Proof.
  intros Hdir Hmk Hcwd.
  pose proof (ensure_config_directory_run t dir Hdir) as Hrun.
  rewrite Hmk, Hcwd in Hrun.
  eexists. split.
  - apply try_except_run_Ok. rewrite (bind_run_Ok _ _ _ _ _ Hrun).
    rewrite bind_print. reflexivity.
  - proj_state. split; [reflexivity|]. apply last_snoc.
Qed.

(** [validate_xdg_directory] cannot see that the configuration
    directory could not be made.  [ensure_config_directory] swallows
    the failure of [mkdir], so with a readable working directory the
    check prints that the permissions are valid and returns [True];
    the handler for [PermissionError] is not reached this way. *)
Theorem validate_xdg_directory_ignores_mkdir_failure self s b1 b2 dir e fs1 d :
  path_exists (xdg_config_dir self) (fs (world s)) = Ok b1 ->
  path_exists (xdg_config_file self) (fs (world s)) = Ok b2 ->
  (get_tmuxbot_config_dir s).1 = Ok dir ->
  mkdir dir (fs (world s)) = (Raise e, fs1) ->
  path_cwd fs1 = Ok d ->
  exists s',
    validate_xdg_directory self s = (Ok true, s') /\
    fs (world s') = fs1 /\
    last (stdout (world s')) = Some ("✅ XDG directory permissions are valid" +:+ nl).
Proof.
  intros Hb1 Hb2 Hdir Hmk Hcwd.
  unfold validate_xdg_directory. rewrite bind_print.
  assert (forall t, environ (world t) = environ (world s) -> fs (world t) = fs (world s) ->
            exists s',
              try_except
                (bind ensure_config_directory
                   (fun _ => bind (print "✅ XDG directory permissions are valid")
                               (fun _ => ret true)))
                (fun e =>
                   if is_PermissionError e
                   then bind (print "❌ Permission denied accessing XDG config directory")
                          (fun _ => ret false)
                   else raise e) t = (Ok true, s') /\
              fs (world s') = fs1 /\
              last (stdout (world s')) =
                Some ("✅ XDG directory permissions are valid" +:+ nl)) as Htail.
  { intros t Henv Hfs. eapply ensure_then_report_run.
    - by rewrite (get_tmuxbot_config_dir_frame t s Henv Hfs).
    - by rewrite Hfs.
    - done. }
  assert (forall body h t (P : St (Sys FS) -> Prop),
            (exists s', body t = (Ok true, s') /\ P s') ->
            exists s', try_except (A := bool) body h t = (Ok true, s') /\ P s') as Htry.
  { intros body h t P (s' & Hbody & HP). exists s'. split; [by apply try_except_run_Ok|done]. }
  apply (Htry _ _ _ (fun s' => fs (world s') = fs1 /\
                               last (stdout (world s')) =
                                 Some ("✅ XDG directory permissions are valid" +:+ nl))).
  erewrite bind_exists by exact Hb1.
  destruct b1; repeat eval_step; (erewrite bind_exists by exact Hb2);
    destruct b2; repeat eval_step; apply Htail; reflexivity.
Qed.

(** *** The migration script *)

Lemma dry_run_keeps :
  keeps (fun w => (environ w, fs w, stdin w, records w)) dry_run.
Proof.
  unfold dry_run, check_migration_needed, get_migration_paths, get_config_file_path,
    get_tmuxbot_config_dir, get_xdg_config_home, exists_, home, cwd, read_fs, print, getenv.
  repeat keeps_step.
Qed.

(** [dry_run] only prints: the environment, the file system, the input
    and the log are as before, whatever happens.  When the paths can be
    determined it returns whether a migration is needed. *)
Theorem dry_run_only_prints s r s' :
  dry_run s = (r, s') ->
  environ (world s') = environ (world s) /\
  fs (world s') = fs (world s) /\
  stdin (world s') = stdin (world s) /\
  records (world s') = records (world s) /\
  forall needs lp xdg,
    check_migration_needed s = (Ok (needs, lp, xdg), s) -> r = Ok needs.
Proof.
  intros Hrun.
  pose proof (dry_run_keeps s _ _ Hrun) as [= -> -> -> ->].
  do 4 (split; [done|]).
  intros needs lp xdg Hcheck.
  cut (exists s2, dry_run s = (Ok needs, s2)).
  { intros [s2 Hrun2]. rewrite Hrun2 in Hrun. by injection Hrun as <- _. }
  clear Hrun. unfold dry_run. rewrite !bind_print.
  set (s0 := with_output _ (with_output _ s)).
  destruct (reads_only_run _ s _ _ s0 reads_only_check_migration_needed Hcheck)
    as [_ Hcheck0]; [done..|].
  rewrite (bind_run_Ok _ _ _ _ _ Hcheck0). cbv beta iota.
  apply check_migration_needed_inv in Hcheck
    as (_ & d & le & _ & _ & _ & -> & Hneeds).
  destruct le.
  - destruct Hneeds as (xe & Hxe & ->). destruct xe; cbn [negb].
    + rewrite bind_bind. erewrite bind_exists by exact Hxe.
      repeat eval_step. by eexists.
    + repeat eval_step. by eexists.
  - subst needs. cbn [negb]. repeat eval_step. by eexists.
Qed.

(** When no migration is needed, [interactive_migration] says so and
    returns [True] at once: [migrate_config] is not called and the
    configuration is not validated, so nothing is logged, read or
    written to the file system. *)
Theorem interactive_migration_not_needed
    (load_config : Extern (Sys FS) (option Config)) s lp xdg :
  check_migration_needed s = (Ok (false, lp, xdg), s) ->
  exists s',
    interactive_migration load_config s = (Ok true, s') /\
    fs (world s') = fs (world s) /\
    stdin (world s') = stdin (world s) /\
    records (world s') = records (world s) /\
    last (stdout (world s')) = Some ("ℹ️  Migration not needed" +:+ nl).
Proof.
  intros Hcheck. unfold interactive_migration. rewrite !bind_print.
  set (s0 := with_output _ (with_output _ s)).
  destruct (reads_only_run _ s _ _ s0 reads_only_check_migration_needed Hcheck)
    as [_ Hcheck0]; [done..|].
  rewrite (bind_run_Ok _ _ _ _ _ Hcheck0). cbv beta iota. cbn [negb].
  rewrite bind_print. eexists. split; [reflexivity|]. proj_state.
  do 3 (split; [reflexivity|]). apply last_snoc.
Qed.

Lemma validate_migrated_config_missing
    (load_config : Extern (Sys FS) (option Config)) xdg t :
  path_exists xdg (fs (world t)) = Ok false ->
  validate_migrated_config load_config xdg t =
    (Ok false,
     with_output ("❌ Configuration file not found at XDG location" +:+ nl)
       (with_output ((nl +:+ "🔍 Validating migrated configuration...") +:+ nl) t)).
Proof.
  intros Hxe. unfold validate_migrated_config. rewrite bind_print.
  apply try_except_run_Ok. erewrite bind_exists by exact Hxe.
  cbn [negb]. rewrite bind_print. reflexivity.
Qed.

(** With no configuration at all (no legacy file and no XDG file),
    [non_interactive_migration] fails: [migrate_config] returns [True],
    there being nothing to migrate, but the validation that follows
    finds no file at the XDG location, and the function reports that
    the validation failed and returns [False].  The file system is not
    touched. *)
Theorem non_interactive_migration_without_config
    (load_config : Extern (Sys FS) (option Config)) s xdg :
  check_migration_needed s = (Ok (false, None, xdg), s) ->
  path_exists xdg (fs (world s)) = Ok false ->
  exists s',
    non_interactive_migration load_config s = (Ok false, s') /\
    fs (world s') = fs (world s) /\
    stdin (world s') = stdin (world s) /\
    last (stdout (world s')) =
      Some ("❌ Migration completed but validation failed" +:+ nl).
Proof.
  intros Hcheck Hxe. unfold non_interactive_migration. rewrite !bind_print.
  set (s0 := with_output _ (with_output _ s)).
  destruct (reads_only_run _ s _ _ s0 reads_only_check_migration_needed Hcheck)
    as [_ Hcheck0]; [done..|].
  assert (migrate_config false true s0 =
            (Ok true,
             with_record
               (mkLogged migration_logger info
                  "No legacy configuration found - migration not needed") s0)) as Hmig.
  { unfold migrate_config. rewrite (bind_run_Ok _ _ _ _ _ Hcheck0). cbv beta iota.
    cbn [negb]. repeat eval_step. reflexivity. }
  rewrite (bind_run_Ok _ _ _ _ _ Hmig). cbv beta iota.
  set (s1 := with_record _ s0).
  apply check_migration_needed_inv in Hcheck as (_ & d & le & _ & Hxdg & _).
  destruct (reads_only_run _ s _ _ s1 reads_only_get_config_file_path Hxdg)
    as [_ Hxdg1]; [done..|].
  rewrite (bind_run_Ok _ _ _ _ _ Hxdg1).
  rewrite (bind_run_Ok _ _ _ _ _ (validate_migrated_config_missing load_config xdg s1 Hxe)).
  cbv beta iota. rewrite bind_print.
  eexists. split; [reflexivity|]. proj_state. unfold s1, s0. proj_state.
  do 2 (split; [reflexivity|]). apply last_snoc.
Qed.

End MigrationFacts.

(** ** The setup check and the factory together *)

Section Composition.

Context {Model World : Type}.
Variable import_module : string -> Extern World (ProviderModule Model World).
Context {Path FS : Type} `{!PathLib Path FS} `{!StrMethods}.
Variable load_config : Extern (Sys FS) (option Config).

Implicit Types (self : ModelFactory) (s : St World) (e : Exc) (m : Model).

Abbreviation not_profile_not_found rec :=
  (forall n : string, rec <> mkLog ERROR ("Profile not found: " +:+ n)).

Lemma dict_get_Some_elem_of {V} (d : Dict V) k v :
  dict_get d k = Some v -> (k, v) ∈ d.
Proof.
  induction d as [|[k' v'] d IH]; [done|]. cbn.
  destruct (decide (k' = k)) as [->|].
  - intros [= ->]. by apply elem_of_cons; left.
  - intros Hget. apply elem_of_cons; right. by apply IH.
Qed.

Ltac not_pnf :=
  let Heq := fresh "Heq" in intros ? [= Heq]; cbv in Heq; discriminate Heq.

Lemma attempt_present_no_pnf self profile_name p s r s' :
  profiles (config self) !! profile_name = Some p ->
  _create_model_for_profile import_module self profile_name s = (r, s') ->
  exists l, log s' = log s ++ l /\ Forall (fun rec => not_profile_not_found rec) l.
Proof.
  intros Hp.
  unfold _create_model_for_profile, bind, try_except, ret, raise, logger, spy, extern.
  cbn -[String.append]. rewrite Hp. cbn -[String.append].
  destruct (import_module _ _) as [[pm|e] w]; cbn -[String.append].
  - destruct (create_model_attr pm) as [f|]; cbn -[String.append].
    + destruct (f p w) as [[o|e] w']; cbn -[String.append].
      * intros [= <- <-]; cbn -[String.append]. eexists. rewrite <- !app_assoc.
        split; [reflexivity|]. repeat constructor; not_pnf.
      * destruct (exc_class e); cbn -[String.append]; intros [= <- <-];
          cbn -[String.append]; eexists; rewrite <- !app_assoc;
          (split; [reflexivity|]); repeat constructor; not_pnf.
    + intros [= <- <-]; cbn -[String.append]. eexists. rewrite <- !app_assoc.
      split; [reflexivity|]. repeat constructor; not_pnf.
  - destruct (exc_class e); cbn -[String.append]; intros [= <- <-];
      cbn -[String.append]; eexists; rewrite <- !app_assoc;
      (split; [reflexivity|]); repeat constructor; not_pnf.
Qed.

Lemma all_fail_present_no_pnf self agent_type names s outs s1 :
  Forall (fun n => is_Some (profiles (config self) !! n)) names ->
  all_fail import_module self agent_type names s outs s1 ->
  exists l, log s1 = log s ++ l /\ Forall (fun rec => not_profile_not_found rec) l.
Proof.
  intros Hnames Hall.
  induction Hall as [s|n names s s1 outs s2 Hat _ IH|n names s e s1 outs s2 Hat _ IH].
  - exists []. by rewrite app_nil_r.
  - apply Forall_cons in Hnames as [[p Hp] Hnames].
    destruct (attempt_present_no_pnf _ _ _ _ _ _ Hp Hat) as (l1 & Hl1 & H1).
    destruct (IH Hnames) as (l2 & Hl2 & H2).
    exists (l1 ++ l2). rewrite Hl2, Hl1, <- app_assoc. split; [done|].
    by apply Forall_app.
  - apply Forall_cons in Hnames as [[p Hp] Hnames].
    destruct (attempt_present_no_pnf _ _ _ _ _ _ Hp Hat) as (l1 & Hl1 & H1).
    destruct (IH Hnames) as (l2 & Hl2 & H2).
    exists (l1 ++ mkLog WARNING (profile_failed_msg agent_type n e) :: l2).
    rewrite Hl2. cbn [log logged]. rewrite Hl1, <- !app_assoc. split; [done|].
    apply Forall_app. split; [done|]. constructor; [|done]. by intros ? [=].
Qed.

Lemma create_model_present_no_pnf self agent_type s :
  (forall agent_config,
      dict_get (agents (config self)) agent_type = Some agent_config ->
      Forall (fun n => is_Some (profiles (config self) !! n)) (profile_names agent_config)) ->
  Forall (fun rec => not_profile_not_found rec)
         (emitted s (create_model import_module self agent_type s).2).
Proof.
  intros Hpresent. unfold emitted.
  destruct (dict_get (agents (config self)) agent_type) as [agent_config|] eqn:Hag.
  - specialize (Hpresent _ eq_refl).
    destruct (first_success_or_all_fail import_module self agent_type
                (profile_names agent_config) s)
      as [(outs & s1 & Hall)|(pre & pn & post & outs & s1 & m & s2 & Hsplit & Hall & Hok)].
    + rewrite (create_model_all_fail _ _ _ _ _ _ _ Hag Hall).
      destruct (all_fail_present_no_pnf _ _ _ _ _ _ Hpresent Hall) as (l & Hl & Hno).
      cbn [snd log logged]. rewrite Hl, <- app_assoc, drop_app_length.
      apply Forall_app. split; [done|]. constructor; [|done].
      destruct (most_recent_error outs); not_pnf.
    + rewrite (create_model_first_success _ _ _ _ _ _ _ _ _ _ _ _ Hag Hsplit Hall Hok).
      rewrite Hsplit in Hpresent. apply Forall_app in Hpresent as [Hpre Hpn].
      apply Forall_cons in Hpn as [[p Hp] _].
      destruct (all_fail_present_no_pnf _ _ _ _ _ _ Hpre Hall) as (l & Hl & Hno).
      destruct (attempt_present_no_pnf _ _ _ _ _ _ Hp Hok) as (l2 & Hl2 & Hno2).
      cbn [snd log logged]. rewrite Hl2, Hl, <- !app_assoc, drop_app_length.
      apply Forall_app. split; [done|]. apply Forall_app. split; [done|].
      constructor; [|done]. destruct (decide (pn ≠ profile agent_config)); by intros ? [=].
  - unfold create_model. rewrite Hag. cbn. rewrite drop_app_length.
    constructor; [|done]. not_pnf.
Qed.

(** A configuration that passes [validate_agent_configs] and whose
    factory is constructed without a warning has no dangling reference:
    whatever agent [create_model] is asked for and whatever the
    providers do, it never logs "Profile not found". *)
Theorem validated_config_resolves_without_profile_not_found
    (cfg : Config) (t t' : St (Sys FS)) w1 (s0 : St World) agent_type s :
  load_config (mkSys (environ (world t)) (fs (world t))
                 (stdout (world t) ++ ["🔍 Validating agent configurations..." +:+ nl])
                 (stdin (world t)) (records (world t)))
  = (Ok (Some cfg), w1) ->
  validate_agent_configs load_config t = (Ok true, t') ->
  log (__init__ cfg s0).2 = log s0 ->
  Forall (fun rec => forall n, rec <> mkLog ERROR ("Profile not found: " +:+ n))
         (emitted s (create_model import_module (mkModelFactory cfg) agent_type s).2).
Proof.
  intros Hload Hvalid Hsilent.
  destruct (validate_agent_configs_spec load_config t) as (b & t'' & Hrun & Hb).
  rewrite Hvalid in Hrun. injection Hrun as <- _.
  destruct (proj1 (Hb cfg w1 Hload) eq_refl) as [_ Hprimary].
  apply create_model_present_no_pnf. intros agent_config Hag. cbn [config] in *.
  apply dict_get_Some_elem_of in Hag.
  rewrite profile_names_default. constructor; [by eapply Hprimary|].
  apply Forall_forall. intros n Hn.
  unfold __init__, bind in Hsilent. rewrite validate_spec in Hsilent.
  cbn [snd log config] in Hsilent.
  rewrite <- (app_nil_r (log s0)) in Hsilent at 2. apply app_inv_head in Hsilent.
  apply fmap_nil_inv in Hsilent.
  destruct (profiles cfg !! n) as [p|] eqn:Hp; [by eexists|].
  assert ((agent_type, n) ∈ missing_fallbacks cfg) as Hmiss
    by (apply elem_of_missing_fallbacks; eauto).
  rewrite Hsilent in Hmiss. by apply elem_of_nil in Hmiss.
Qed.

End Composition.

(** ** The further properties on the mocked provider *)

Section FactoryMoreOnScenario.

Import Scenario.

Ltac run := vm_compute; reflexivity.


Lemma attempt_module_lacks_create_model_witness :
  exists e s',
    _create_model_for_profile (World := unit) (Model := string)
      (fun _ w => (Ok (mkProviderModule None), w)) factory "A" (mkSt tt [] [])
    = (Raise e, s') /\
    exc_class e = RuntimeError.
Proof.
  edestruct (attempt_module_lacks_create_model (World := unit) (Model := string)
               (fun _ w => (Ok (mkProviderModule None), w)) factory "A"
               (openai "gpt-4") (mkSt tt [] []) (mkProviderModule None) tt)
    as (e & s' & Hrun & Hcls & _).
  - run.
  - reflexivity.
  - reflexivity.
  - exists e, s'. split; [exact Hrun | exact Hcls].
Defined.

Lemma attempt_provider_import_error_witness :
  exists s',
    _create_model_for_profile import_module factory "A"
      (start [Raise (mkExc ImportError "No module named 'openai'" None)])
    = (Raise (mkExc ValueError
                ("Unsupported provider specified: 'openai'. "
                 +:+ "Could not find provider module 'tmuxbot.providers.openai'")
                (Some (mkExc ImportError "No module named 'openai'" None))), s').
Proof.
  eexists.
  rewrite (attempt_provider_import_error import_module factory "A" (openai "gpt-4")
             (start [Raise (mkExc ImportError "No module named 'openai'" None)])
             (mkProviderModule (Some mock_create_model))
             [Raise (mkExc ImportError "No module named 'openai'" None)]
             mock_create_model
             (mkExc ImportError "No module named 'openai'" None) []);
    [reflexivity | run | run | reflexivity | run | reflexivity].
Defined.

Lemma create_model_provenance_witness :
  exists agent_config profile_name p,
    dict_get (agents cfg) "x" = Some agent_config /\
    profile_name ∈ profile_names agent_config /\
    profiles cfg !! profile_name = Some p.
Proof.
  edestruct (create_model_provenance import_module factory "x"
               (start [boom; Ok (Some "m2")]) "m2")
    as (ac & pn & p & _ & _ & _ & _ & Hag & Hin & Hp & _).
  - run.
  - exists ac, pn, p. split; [exact Hag|]. split; [exact Hin | exact Hp].
Defined.

Lemma create_model_all_dangling_witness :
  run_create_model "z" [] =
    (Ok None,
     mkSt []
       ([] ++ ((fun n => mkLog ERROR ("Profile not found: " +:+ n))
               <$> profile_names (mkAgentConfig "Z" None None))
          ++ [mkLog ERROR ("No valid profiles found for agent '" +:+ "z" +:+ "'")])
       ([] ++ profile_names (mkAgentConfig "Z" None None))).
Proof.
  apply (create_model_all_dangling import_module factory "z" (mkAgentConfig "Z" None None)
           (start [])).
  - run.
  - repeat constructor.
Defined.

Lemma create_model_local_witness :
  create_model import_module factory "x" (start [boom; Ok (Some "m2")]) =
  create_model import_module
    (mkModelFactory (mkConfig (<["C" := openai "o1"]> (profiles cfg)) (agents cfg) 1 2))
    "x" (start [boom; Ok (Some "m2")]).
Proof.
  apply (create_model_local import_module factory _ "x" (mkAgentConfig "A" None (Some ["B"]))).
  - run.
  - run.
  - intros n Hn. cbn [config profiles].
    rewrite lookup_insert_ne; [reflexivity|].
    intros <-. vm_compute in Hn. repeat (inversion_clear Hn as [|? ? ? Hn']; rename Hn' into Hn).
Defined.


End FactoryMoreOnScenario.

(** ** The system facts on the concrete system *)

Section SystemOnScenario.

Import SysScenario.

Ltac run := vm_compute; reflexivity.

Lemma check_migration_needed_decides_witness :
  get_config_file_path (sys home_env ["/work/config.yaml"] false []) =
    (Ok "/home/u/.config/tmuxbot/config.yaml", sys home_env ["/work/config.yaml"] false []).
Proof.
  edestruct (check_migration_needed_decides (sys home_env ["/work/config.yaml"] false [])
               true (Some "/work/config.yaml") "/home/u/.config/tmuxbot/config.yaml"
               (sys home_env ["/work/config.yaml"] false []))
    as (_ & Hxdg & _).
  - run.
  - exact Hxdg.
Defined.

Lemma migration_status_consistent_witness :
  exists st,
    (run_migration_status (sys home_env ["/work/config.yaml"] false [])).1 = Ok st /\
    st_needs_migration st = st_legacy_exists st && negb (st_xdg_exists st).
Proof.
  edestruct (migration_status_consistent (sys home_env ["/work/config.yaml"] false []))
    as (_ & Hneeds & _).
  - run.
  - eexists. split; [run | exact Hneeds].
Defined.

Lemma migrate_config_batch_is_silent_witness :
  exists r s',
    run_migrate_config false true (sys home_env ["/work/config.yaml"] false ["y"]) = (r, s') /\
    stdout (world s') = [] /\ stdin (world s') = ["y"].
Proof.
  edestruct (migrate_config_batch_is_silent true
               (sys home_env ["/work/config.yaml"] false ["y"]))
    as [Hout Hin].
  - run.
  - eexists _, _. split; [run|]. split; [exact Hout | exact Hin].
Defined.

Lemma migrate_config_nothing_to_do_witness :
  exists s',
    migrate_config true true (sys home_env [] false ["y"]) = (Ok true, s') /\
    fs (world s') = mkFS [] false /\
    stdin (world s') = ["y"].
Proof.
  edestruct (migrate_config_nothing_to_do true true (sys home_env [] false ["y"]) None
               "/home/u/.config/tmuxbot/config.yaml")
    as (s' & Hrun & Hfs & Hin & _).
  - run.
  - exists s'. split; [exact Hrun|]. split; [exact Hfs | exact Hin].
Defined.

Lemma migrate_config_declined_witness :
  exists s',
    migrate_config true true (sys home_env ["/work/config.yaml"] false [" No "; "y"])
    = (Ok false, s') /\
    fs (world s') = mkFS ["/work/config.yaml"] false /\
    stdin (world s') = ["y"].
Proof.
  edestruct (migrate_config_declined true
               (sys home_env ["/work/config.yaml"] false [" No "; "y"])
               (Some "/work/config.yaml") "/home/u/.config/tmuxbot/config.yaml"
               " No " ["y"])
    as (s' & Hrun & Hfs & Hin & _).
  - run.
  - reflexivity.
  - apply (bool_decide_unpack _). vm_compute. exact I.
  - exists s'. split; [exact Hrun|]. split; [exact Hfs | exact Hin].
Defined.


Lemma migrate_config_eof_witness :
  exists e s',
    migrate_config true false (sys home_env ["/work/config.yaml"] false []) = (Raise e, s') /\
    exc_class e = OtherException "EOFError".
Proof.
  edestruct (migrate_config_eof false (sys home_env ["/work/config.yaml"] false [])
               (Some "/work/config.yaml") "/home/u/.config/tmuxbot/config.yaml")
    as (e & s' & Hrun & Hcls & _).
  - run.
  - reflexivity.
  - exists e, s'. split; [exact Hrun | exact Hcls].
Defined.

Lemma ensure_config_directory_falls_back_witness :
  exists s',
    ensure_config_directory (sys home_env [] true []) = (Ok "/work", s') /\
    fs (world s') = mkFS [] true.
Proof.
  edestruct (ensure_config_directory_falls_back (sys home_env [] true [])
               "/home/u/.config/tmuxbot")
    as (s' & Hrun & Hfs & _).
  - run.
  - run.
  - exists s'. split; [exact Hrun | exact Hfs].
Defined.

Lemma migrate_config_success_is_checked_witness :
  exists fs0 fs1,
    copy2 (Some "/work/config.yaml") "/home/u/.config/tmuxbot/config.yaml" fs0 = (Ok tt, fs1) /\
    path_exists "/home/u/.config/tmuxbot/config.yaml" fs1 = Ok true.
Proof.
  edestruct (migrate_config_success_is_checked false true
               (sys home_env ["/work/config.yaml"] false [])
               (Some "/work/config.yaml") "/home/u/.config/tmuxbot/config.yaml")
    as (fs0 & fs1 & Hcopy & Hex & _).
  - run.
  - run.
  - exists fs0, fs1. split; [exact Hcopy | exact Hex].
Defined.

Lemma migrate_config_mkdir_failure_reported_by_copy_witness :
  exists s',
    migrate_config false true (sys home_env ["/work/config.yaml"] true []) = (Ok false, s') /\
    fs (world s') = mkFS ["/work/config.yaml"] true /\
    last (records (world s')) =
      Some (mkLogged migration_logger error
              ("Migration failed: [Errno 2] No such file or directory: "
               +:+ "'/home/u/.config/tmuxbot/config.yaml'")).
Proof.
  edestruct (migrate_config_mkdir_failure_reported_by_copy true
               (sys home_env ["/work/config.yaml"] true [])
               (Some "/work/config.yaml") "/home/u/.config/tmuxbot/config.yaml"
               "/home/u/.config/tmuxbot")
    as (s' & msg & Hrun & Hfs & Hrec).
  - run.
  - run.
  - run.
  - run.
  - run.
  - exists s'. split; [exact Hrun|]. split; [exact Hfs|].
    rewrite Hrec. vm_compute. reflexivity.
Defined.

Lemma migrate_config_false_is_logged_witness :
  exists s',
    migrate_config true true (sys home_env ["/work/config.yaml"] false ["n"])
    = (Ok false, s') /\
    exists rec, last (records (world s')) = Some rec.
Proof.
  edestruct (migrate_config_false_is_logged true true
               (sys home_env ["/work/config.yaml"] false ["n"])
               (Some "/work/config.yaml") "/home/u/.config/tmuxbot/config.yaml")
    as [[_ Hlast] | (e & s1 & s2 & _ & _ & Hlast)].
  - run.
  - run.
  - eexists. split; [run|]. eexists. exact Hlast.
  - eexists. split; [run|]. eexists. exact Hlast.
Defined.

Lemma validated_config_resolves_without_profile_not_found_witness :
  Forall (fun rec => forall n, rec <> mkLog ERROR ("Profile not found: " +:+ n))
         (emitted (Scenario.start [Scenario.boom])
            (create_model Scenario.import_module (mkModelFactory good_cfg) "x"
               (Scenario.start [Scenario.boom])).2).
Proof.
  eapply (validated_config_resolves_without_profile_not_found
            Scenario.import_module (load_config (Some good_cfg)) good_cfg
            (sys [] [] false []) _ _ (Scenario.start [])).
  - reflexivity.
  - run.
  - run.
Defined.

Lemma ConfigSetup_paths_agree_witness :
  exists self,
    ConfigSetup__init__ "/proj" (sys [("XDG_CONFIG_HOME", "/xdg")] [] false [])
    = (Ok self, sys [("XDG_CONFIG_HOME", "/xdg")] [] false []) /\
    xdg_config_file self = joinpath (xdg_config_dir self) "config.yaml".
Proof.
  edestruct (ConfigSetup_paths_agree "/proj" (sys [("XDG_CONFIG_HOME", "/xdg")] [] false []))
    as (_ & _ & Hfile & _).
  - run.
  - eexists. split; [run | exact Hfile].
Defined.

Lemma validate_xdg_directory_ignores_mkdir_failure_witness :
  exists s',
    validate_xdg_directory
      (mkConfigSetup "/proj" "/home/u/.config/tmuxbot" "/home/u/.config/tmuxbot/config.yaml")
      (sys home_env [] true [])
    = (Ok true, s') /\
    fs (world s') = mkFS [] true.
Proof.
  edestruct (validate_xdg_directory_ignores_mkdir_failure
               (mkConfigSetup "/proj" "/home/u/.config/tmuxbot"
                  "/home/u/.config/tmuxbot/config.yaml")
               (sys home_env [] true []) false false "/home/u/.config/tmuxbot")
    as (s' & Hrun & Hfs & _).
  - run.
  - run.
  - run.
  - run.
  - run.
  - exists s'. split; [exact Hrun | exact Hfs].
Defined.

Lemma dry_run_only_prints_witness :
  exists s',
    dry_run (sys home_env ["/work/config.yaml"] false []) = (Ok true, s') /\
    fs (world s') = mkFS ["/work/config.yaml"] false.
Proof.
  edestruct (dry_run_only_prints (sys home_env ["/work/config.yaml"] false []))
    as (_ & Hfs & _ & _ & Hres).
  - run.
  - eexists. split; [run | exact Hfs].
Defined.

Lemma interactive_migration_not_needed_witness :
  exists s',
    interactive_migration (load_config None) (sys home_env [] false ["y"]) = (Ok true, s') /\
    stdin (world s') = ["y"].
Proof.
  edestruct (interactive_migration_not_needed (load_config None)
               (sys home_env [] false ["y"]) None "/home/u/.config/tmuxbot/config.yaml")
    as (s' & Hrun & _ & Hin & _).
  - run.
  - exists s'. split; [exact Hrun | exact Hin].
Defined.

Lemma non_interactive_migration_without_config_witness :
  exists s',
    non_interactive_migration (load_config (Some good_cfg)) (sys home_env [] false [])
    = (Ok false, s') /\
    fs (world s') = mkFS [] false.
Proof.
  edestruct (non_interactive_migration_without_config (load_config (Some good_cfg))
               (sys home_env [] false []) "/home/u/.config/tmuxbot/config.yaml")
    as (s' & Hrun & Hfs & _).
  - run.
  - run.
  - exists s'. split; [exact Hrun | exact Hfs].
Defined.

End SystemOnScenario.
